(** * Devotionals API: the devotional lifecycle of [src/server.ts]

    A shallow embedding of the five devotional routes of the Express
    server (the first, commented variant of the file, lines 1-227): the
    [devotionals] table, the SQL statements the handlers prepare, the
    JavaScript checks they perform on the request ([isNaN(Number(id))],
    [!verse]), their [try]/[catch] blocks and the responses they send. *)

From Stdlib Require Import ZArith List String Ascii Bool Lia.
From Stdlib Require Decimal DecimalString DecimalPos DecimalZ.
From Stdlib Require Import Sorting.Sorted Sorting.Permutation.
Import ListNotations.

Local Open Scope string_scope.
Local Open Scope list_scope.
Local Open Scope Z_scope.

(** ** Characters and lexical helpers *)

Definition Chars := list ascii.

Definition isDigit (c : ascii) : bool :=
  ((48 <=? nat_of_ascii c) && (nat_of_ascii c <=? 57))%nat.

Fixpoint span (p : ascii -> bool) (l : Chars) : Chars * Chars :=
  match l with
  | [] => ([], [])
  | c :: r =>
      if p c then let (a, b) := span p r in (c :: a, b) else ([], l)
  end.

Fixpoint dropWhile (p : ascii -> bool) (l : Chars) : Chars :=
  match l with
  | [] => []
  | c :: r => if p c then dropWhile p r else l
  end.

(** Removal of the leading and the trailing characters that satisfy [p]. *)
Definition trim (p : ascii -> bool) (l : Chars) : Chars :=
  List.rev (dropWhile p (List.rev (dropWhile p l))).

(** Value of a run of decimal digits ([0] for the empty run). *)
Definition digits_value (ds : Chars) : Z :=
  match DecimalString.NilEmpty.uint_of_string (string_of_list_ascii ds) with
  | Some d => Z.of_uint d
  | None => 0
  end.

(** An optional sign: [true] for a leading minus. *)
Definition signed (cs : Chars) : bool * Chars :=
  match cs with
  | "+"%char :: r => (false, r)
  | "-"%char :: r => (true, r)
  | _ => (false, cs)
  end.

Definition apply_sign (neg : bool) (m : Z) : Z := if neg then - m else m.

(** [e] or [E], an optional sign and at least one digit up to the end of
    the text; the empty text is the absent exponent. *)
Definition exponent_part (cs : Chars) : option Z :=
  match cs with
  | [] => Some 0
  | c :: r =>
      if (Ascii.eqb c "e" || Ascii.eqb c "E")%bool then
        let (neg, ds) := signed r in
        match span isDigit ds with
        | (d :: ds', []) => Some (apply_sign neg (digits_value (d :: ds')))
        | _ => None
        end
      else None
  end.

(** Digits with an optional fraction and an optional exponent, the whole
    text: [Some (m, e)] stands for the number [m * 10^e]. At least one
    digit is required before or after the point. *)
Definition unsigned_decimal (cs : Chars) : option (Z * Z) :=
  let (ip, r1) := span isDigit cs in
  let (fp, r2) :=
    match r1 with
    | "."%char :: r => span isDigit r
    | _ => ([], r1)
    end in
  match ip ++ fp with
  | [] => None
  | _ :: _ =>
      match exponent_part r2 with
      | Some e => Some (digits_value (ip ++ fp), e - Z.of_nat (List.length fp))
      | None => None
      end
  end.

Definition decimal_literal (cs : Chars) : option (Z * Z) :=
  let (neg, r) := signed cs in
  match unsigned_decimal r with
  | Some (m, e) => Some (apply_sign neg m, e)
  | None => None
  end.

(** ** JavaScript: [Number(id)] and [isNaN]

    [req.params.id] is a string. Its characters are code units below 256
    here. A number is a binary64 value; a finite one is written with a
    mantissa and a power of ten, [Finite m e] for [m * 10^e], which every
    binary64 value has. *)

Inductive JsNumber : Type :=
| NaN : JsNumber
| Infinite (negative : bool) : JsNumber
| Finite (m e : Z) : JsNumber.

Definition isNaN (x : JsNumber) : bool :=
  match x with NaN => true | _ => false end.

(** *** Rounding to binary64

    The positive rational [p / q] is rounded to the nearest [n * 2^E]
    with [n < 2^53] and [E >= -1074], ties to the even [n]; from [2^1024]
    on the result is infinite. *)

Definition scaled_quotient (p q E : Z) : Z :=
  if 0 <=? E then p / (q * 2 ^ E) else (p * 2 ^ (- E)) / q.

(** The exponent [E] that leaves 53 bits to [p / q], not below that of
    the subnormal numbers. *)
Definition binary64_exponent (p q : Z) : Z :=
  let E1 := Z.log2 p - Z.log2 q - 53 in
  let E := if 2 ^ 53 <=? scaled_quotient p q E1 then E1 + 1 else E1 in
  Z.max E (- 1074).

Definition round_half_even (num den : Z) : Z :=
  let n := num / den in
  let r := num mod den in
  if (den <? 2 * r) || ((den =? 2 * r) && Z.odd n) then n + 1 else n.

(** [Some (n, E)] for the value [n * 2^E], [None] on overflow. *)
Definition round_binary64_pos (p q : Z) : option (Z * Z) :=
  let E := binary64_exponent p q in
  if 0 <=? E
  then let n := round_half_even p (q * 2 ^ E) in
       if 2 ^ 1024 <=? n * 2 ^ E then None else Some (n, E)
  else Some (round_half_even (p * 2 ^ (- E)) q, E).

(** [n * 2^E] as a mantissa and a power of ten, with the exponent [0]
    for an integer and no trailing zero in the mantissa otherwise. *)
Definition dyadic_to_decimal (n E : Z) : Z * Z :=
  if 0 <=? E then (n * 2 ^ E, 0)
  else let g := Z.gcd n (2 ^ (- E)) in
       let k := - E - Z.log2 g in
       (n / g * 5 ^ k, - k).

(** The binary64 value nearest to [m * 10^e]. *)
Definition round_binary64 (m e : Z) : JsNumber :=
  if m =? 0 then Finite 0 0
  else
    let p := if 0 <=? e then Z.abs m * 10 ^ e else Z.abs m in
    let q := if 0 <=? e then 1 else 10 ^ (- e) in
    match round_binary64_pos p q with
    | None => Infinite (m <? 0)
    | Some (n, E) =>
        let (d, k) := dyadic_to_decimal n E in
        Finite (if m <? 0 then - d else d) k
    end.

(** RoundMVResult: the number for a mathematical value. *)
Definition RoundMVResult (x : JsNumber) : JsNumber :=
  match x with
  | Finite m e => round_binary64 m e
  | _ => x
  end.

(** A 64-bit integer of the store as a JavaScript number: what
    better-sqlite3 hands over as [lastInsertRowid]. *)
Definition int64_to_number (z : Z) : Z :=
  match round_binary64 z 0 with
  | Finite m e => m * 10 ^ e
  | _ => z
  end.

(** StrWhiteSpaceChar: TAB, LF, VT, FF, CR, SP and NBSP. *)
Definition StrWhiteSpaceChar (c : ascii) : bool :=
  let n := nat_of_ascii c in
  (((9 <=? n) && (n <=? 13)) || (n =? 32) || (n =? 160))%nat.

Definition digit_in_radix (radix : Z) (c : ascii) : option Z :=
  let n := Z.of_nat (nat_of_ascii c) in
  let v := if ((48 <=? n) && (n <=? 57))%Z then n - 48
           else if ((97 <=? n) && (n <=? 102))%Z then n - 87
           else if ((65 <=? n) && (n <=? 70))%Z then n - 55
           else 16 in
  if (v <? radix)%Z then Some v else None.

Fixpoint radix_value (radix : Z) (acc : Z) (cs : Chars) : option Z :=
  match cs with
  | [] => Some acc
  | c :: r =>
      match digit_in_radix radix c with
      | Some v => radix_value radix (radix * acc + v) r
      | None => None
      end
  end.

(** [0x], [0o] and [0b] literals: no sign, at least one digit. *)
Definition NonDecimalIntegerLiteral (cs : Chars) : option Z :=
  match cs with
  | "0"%char :: p :: d :: ds =>
      if (Ascii.eqb p "x" || Ascii.eqb p "X")%bool
      then radix_value 16 0 (d :: ds)
      else if (Ascii.eqb p "o" || Ascii.eqb p "O")%bool
      then radix_value 8 0 (d :: ds)
      else if (Ascii.eqb p "b" || Ascii.eqb p "B")%bool
      then radix_value 2 0 (d :: ds)
      else None
  | _ => None
  end.

Definition chars_eqb (a b : Chars) : bool :=
  String.eqb (string_of_list_ascii a) (string_of_list_ascii b).

(** The mathematical value of a string: white space is trimmed, the
    empty text is [0], then a decimal literal, a signed [Infinity] or a
    non-decimal integer; anything else is [NaN]. *)
Definition StringNumericValue (s : string) : JsNumber :=
  let t := trim StrWhiteSpaceChar (list_ascii_of_string s) in
  match t with
  | [] => Finite 0 0
  | _ :: _ =>
      match decimal_literal t with
      | Some (m, e) => Finite m e
      | None =>
          let (neg, r) := signed t in
          if chars_eqb r (list_ascii_of_string "Infinity") then Infinite neg
          else match NonDecimalIntegerLiteral t with
               | Some n => Finite n 0
               | None => NaN
               end
      end
  end.

(** StringToNumber: the mathematical value, rounded to binary64. *)
Definition Number (s : string) : JsNumber :=
  RoundMVResult (StringNumericValue s).

(** [String(n)] of an integer: its decimal digits. *)
Definition String_of_int (n : Z) : string :=
  DecimalString.NilZero.string_of_int (Z.to_int n).

(** ** The store: SQLite through better-sqlite3 *)

(** [CURRENT_TIMESTAMP] has a resolution of one second; a timestamp is the
    number of the second (the text form the engine stores sorts the same
    way). *)
Definition Timestamp := Z.

Module Devotional.

(** A row of [devotionals]; [None] is SQL [NULL]. *)
Record t : Type := mk {
  id : Z;
  verse : string;
  content : string;
  created_at : Timestamp;
  updated_at : option Timestamp;
  deleted_at : option Timestamp
}.

End Devotional.

(** The table in rowid order, with the counter that [AUTOINCREMENT] keeps
    in [sqlite_sequence]. *)
Record Table : Type := mkTable {
  rows : list Devotional.t;
  seq : Z
}.

(** The table is created only when the database file is new (lines
    24-40): a file that exists without it gives [None]. *)
Definition Database := option Table.

Definition empty_table : Table := mkTable [] 0.

(** Statements either return or throw. *)
Inductive Exc (A : Type) : Type :=
| Returns (a : A)
| Throws (e : string).
Arguments Returns {A} a.
Arguments Throws {A} e.

Definition bind {A B : Type} (c : Exc A) (k : A -> Exc B) : Exc B :=
  match c with
  | Returns a => k a
  | Throws e => Throws e
  end.

Notation "x <- c ;; k" := (bind c (fun x => k))
  (at level 61, c at next level, right associativity).

(** [try { body } catch (error) { handler }]. *)
Definition try_catch {A : Type} (body : Exc A) (handler : string -> A) : A :=
  match body with
  | Returns a => a
  | Throws e => handler e
  end.

(** [db.prepare(sql)] fails when the table is missing. *)
Definition prepare (db : Database) : Exc Table :=
  match db with
  | Some t => Returns t
  | None => Throws "no such table: devotionals"
  end.

(** A bound parameter: a JavaScript string is bound as TEXT, a number as
    a numeric value. *)
Inductive Bound : Type :=
| BText (s : string)
| BNumber (x : JsNumber).

(** The binding of a body field: [undefined] cannot be bound. *)
Definition bind_text (v : option string) : Exc string :=
  match v with
  | Some s => Returns s
  | None => Throws "SQLite3 can only bind numbers, strings, bigints, buffers, and null"
  end.

Definition sqlite3Isspace (c : ascii) : bool :=
  let n := nat_of_ascii c in
  (((9 <=? n) && (n <=? 13)) || (n =? 32))%nat.

(** A TEXT operand read as a decimal literal: the whole text, white space
    apart; the exact mantissa and exponent. *)
Definition sql_numeric_text (s : string) : option (Z * Z) :=
  decimal_literal (trim sqlite3Isspace (list_ascii_of_string s)).

(** An integer literal: an optional sign and digits only. *)
Definition integer_literal (cs : Chars) : bool :=
  let (_, r) := signed cs in
  match r with
  | [] => false
  | _ :: _ => forallb isDigit r
  end.

Definition fits_int64 (m : Z) : bool :=
  (- 2 ^ 63 <=? m) && (m <=? 2 ^ 63 - 1).

(** Numeric affinity applied to a TEXT operand before it is compared with
    the INTEGER column: an integer literal that fits 64 bits becomes that
    INTEGER, any other decimal literal becomes the nearest REAL, and a
    text that is no decimal literal stays TEXT ([None]). *)
Definition sql_text_value (s : string) : option JsNumber :=
  match sql_numeric_text s with
  | Some (m, e) =>
      if integer_literal (trim sqlite3Isspace (list_ascii_of_string s))
         && fits_int64 m
      then Some (Finite m e)
      else Some (round_binary64 m e)
  | None => None
  end.

(** Does the integer [n] equal [m * 10^e]? *)
Definition denotes (n m e : Z) : bool :=
  if 0 <=? e then n =? m * 10 ^ e else m =? n * 10 ^ (- e).

(** [id = ?] on the INTEGER PRIMARY KEY column: the rowid is compared
    with the value of the operand, INTEGER or REAL, without rounding. *)
Definition sql_id_eq (rowid : Z) (v : Bound) : bool :=
  match v with
  | BText s =>
      match sql_text_value s with
      | Some (Finite m e) => denotes rowid m e
      | _ => false
      end
  | BNumber (Finite m e) => denotes rowid m e
  | BNumber _ => false
  end.

Definition is_null {A : Type} (o : option A) : bool :=
  match o with None => true | Some _ => false end.

(** [ORDER BY created_at DESC]: rows with the same [created_at] keep the
    order of the scan, which is what the engine's sorter does (SQL itself
    leaves their order open). *)
Fixpoint insert_desc (d : Devotional.t) (l : list Devotional.t)
  : list Devotional.t :=
  match l with
  | [] => [d]
  | x :: l' =>
      if Devotional.created_at d <? Devotional.created_at x
      then x :: insert_desc d l'
      else d :: l
  end.

Definition order_by_created_at_desc (l : list Devotional.t)
  : list Devotional.t :=
  fold_right insert_desc [] l.

(** [SELECT * FROM devotionals WHERE deleted_at IS NULL
     ORDER BY created_at DESC], [.all()]. *)
Definition select_active (db : Database) : Exc (list Devotional.t) :=
  t <- prepare db ;;
  Returns (order_by_created_at_desc
             (filter (fun d => is_null (Devotional.deleted_at d)) (rows t))).

Definition where_id_active (v : Bound) (d : Devotional.t) : bool :=
  sql_id_eq (Devotional.id d) v && is_null (Devotional.deleted_at d).

(** [SELECT * FROM devotionals WHERE id = ? AND deleted_at IS NULL],
    [.get(id)]: the first matching row, or [undefined]. *)
Definition select_by_id (db : Database) (v : Bound)
  : Exc (option Devotional.t) :=
  t <- prepare db ;;
  Returns (find (where_id_active v) (rows t)).

Definition max_rowid (l : list Devotional.t) : Z :=
  fold_right (fun d acc => Z.max (Devotional.id d) acc) 0 l.

(** [INSERT INTO devotionals (verse, content) VALUES (?, ?)], [.run]:
    the new rowid is one more than the largest ever used, [created_at]
    takes its default, the two other timestamps are NULL. The result is
    the store and [lastInsertRowid], a JavaScript number. (The failure of
    the INSERT once the largest rowid is [2^63 - 1] is, like a full disk,
    not among the failures of the store here.) *)
Definition insert_devotional (db : Database) (now : Timestamp)
    (verse content : option string) : Exc (Database * Z) :=
  t <- prepare db ;;
  v <- bind_text verse ;;
  c <- bind_text content ;;
  let rowid := Z.max (seq t) (max_rowid (rows t)) + 1 in
  Returns (Some (mkTable (rows t ++ [Devotional.mk rowid v c now None None])
                         rowid),
           int64_to_number rowid).

(** An [UPDATE ... SET ... WHERE ...]: the store and [changes]. *)
Definition run_update (set : Devotional.t -> Devotional.t)
    (where_ : Devotional.t -> bool) (t : Table) : Database * Z :=
  (Some (mkTable (map (fun d => if where_ d then set d else d) (rows t))
                 (seq t)),
   Z.of_nat (List.length (filter where_ (rows t)))).

Definition set_content (c : string) (now : Timestamp) (d : Devotional.t) :=
  Devotional.mk (Devotional.id d) (Devotional.verse d) c
    (Devotional.created_at d) (Some now) (Devotional.deleted_at d).

Definition set_verse (v : string) (now : Timestamp) (d : Devotional.t) :=
  Devotional.mk (Devotional.id d) v (Devotional.content d)
    (Devotional.created_at d) (Some now) (Devotional.deleted_at d).

Definition set_content_verse (c v : string) (now : Timestamp)
    (d : Devotional.t) :=
  Devotional.mk (Devotional.id d) v c
    (Devotional.created_at d) (Some now) (Devotional.deleted_at d).

Definition set_deleted_at (now : Timestamp) (d : Devotional.t) :=
  Devotional.mk (Devotional.id d) (Devotional.verse d) (Devotional.content d)
    (Devotional.created_at d) (Devotional.updated_at d) (Some now).

(** [UPDATE devotionals SET content = ?, updated_at = CURRENT_TIMESTAMP
     WHERE id = ? AND deleted_at IS NULL], [.run(content, id)]. *)
Definition update_content (db : Database) (now : Timestamp)
    (content : option string) (id : Bound) : Exc (Database * Z) :=
  t <- prepare db ;;
  c <- bind_text content ;;
  Returns (run_update (set_content c now) (where_id_active id) t).

(** [UPDATE devotionals SET verse = ?, updated_at = CURRENT_TIMESTAMP
     WHERE id = ? AND deleted_at IS NULL], [.run(verse, id)]. *)
Definition update_verse (db : Database) (now : Timestamp)
    (verse : option string) (id : Bound) : Exc (Database * Z) :=
  t <- prepare db ;;
  v <- bind_text verse ;;
  Returns (run_update (set_verse v now) (where_id_active id) t).

(** [UPDATE devotionals SET content = ?, verse = ?,
     updated_at = CURRENT_TIMESTAMP WHERE id = ? AND deleted_at IS NULL],
    [.run(content, verse, id)]: the first parameter is the content. *)
Definition update_content_verse (db : Database) (now : Timestamp)
    (first second : option string) (id : Bound) : Exc (Database * Z) :=
  t <- prepare db ;;
  c <- bind_text first ;;
  v <- bind_text second ;;
  Returns (run_update (set_content_verse c v now) (where_id_active id) t).

(** [UPDATE devotionals SET deleted_at = CURRENT_TIMESTAMP
     WHERE id = ? AND deleted_at IS NULL], [.run(Number(id))]. *)
Definition update_deleted_at (db : Database) (now : Timestamp) (id : Bound)
  : Exc (Database * Z) :=
  t <- prepare db ;;
  Returns (run_update (set_deleted_at now) (where_id_active id) t).

(** ** The handlers *)

(** What [res.status(...).json(...)] or [.send()] sends. *)
Inductive Json : Type :=
| ErrorBody (error : string)
| RowBody (d : Devotional.t)
| RowsBody (l : list Devotional.t)
| CreatedBody (message : string) (id : Z) (verse content : option string)
| UpdatedBody (message : string) (verse content : option string)
| Empty.

Record Response : Type := mkResponse {
  status : Z;
  body : Json
}.

(** A field of [req.body]: absent ([undefined]) or a string. [falsy v] is
    [!v]: absent or the empty string. *)
Definition falsy (v : option string) : bool :=
  match v with
  | None => true
  | Some s => String.eqb s ""
  end.

(** [GET /api/devotionals] (lines 59-67). *)
Definition listActive (db : Database) : Response :=
  try_catch
    (devotionals <- select_active db ;;
     Returns (mkResponse 200 (RowsBody devotionals)))
    (fun _ => mkResponse 500 (ErrorBody "Failed to retrieve devotionals.")).

(** [GET /api/devotionals/:id] (lines 70-90). *)
Definition getById (db : Database) (id : string) : Response :=
  try_catch
    (if isNaN (Number id)
     then Returns (mkResponse 400
                     (ErrorBody "Invalid id provided. Id must be a number"))
     else
       devotionals <- select_by_id db (BText id) ;;
       match devotionals with
       | Some d => Returns (mkResponse 200 (RowBody d))
       | None => Returns (mkResponse 404
                            (ErrorBody "Devotional not found or deleted."))
       end)
    (fun _ => mkResponse 404 (ErrorBody "Devotional Not Found")).

(** [POST /api/devotionals] (lines 93-115). *)
Definition create (db : Database) (now : Timestamp)
    (verse content : option string) : Database * Response :=
  try_catch
    (if falsy verse || falsy content
     then Returns (db, mkResponse 400
                         (ErrorBody "Both Verse and Content are required"))
     else
       devotionals <- insert_devotional db now verse content ;;
       let (db', lastInsertRowid) := devotionals in
       Returns (db', mkResponse 201
                       (CreatedBody "Devotional created successfully"
                          lastInsertRowid verse content)))
    (fun _ => (db, mkResponse 500 (ErrorBody "Failed to create devotional."))).

(** [PATCH /api/devotionals/:id] (lines 145-194). *)
Definition updatePartial (db : Database) (now : Timestamp) (id : string)
    (verse content : option string) : Database * Response :=
  try_catch
    (if isNaN (Number id)
     then Returns (db, mkResponse 400
                         (ErrorBody "Invalid id provided. Id must be a number"))
     else if falsy verse && falsy content
     then Returns (db, mkResponse 400
                         (ErrorBody "At least Verse or Content is required"))
     else
       devotionals <-
         (if falsy verse then update_content db now content (BText id)
          else if falsy content then update_verse db now verse (BText id)
          else update_content_verse db now content verse (BText id)) ;;
       let (db', changes) := devotionals in
       if 0 <? changes
       then Returns (db', mkResponse 200
                            (UpdatedBody
                               ("Devotional with id " ++ id
                                ++ " updated successfully")%string
                               verse content))
       else Returns (db', mkResponse 404
                            (ErrorBody
                               "Devotional not found or could not be updated.")))
    (fun _ => (db, mkResponse 500 (ErrorBody "Failed to update devotional."))).

(** [DELETE /api/devotionals/:id] (lines 197-222). *)
Definition softDelete (db : Database) (now : Timestamp) (id : string)
  : Database * Response :=
  try_catch
    (if isNaN (Number id)
     then Returns (db, mkResponse 400
                         (ErrorBody "Invalid id provided. Id must be a number"))
     else
       devotionals <- update_deleted_at db now (BNumber (Number id)) ;;
       let (db', changes) := devotionals in
       if 0 <? changes
       then Returns (db', mkResponse 204 Empty)
       else Returns (db', mkResponse 404
                            (ErrorBody
                               "Devotional not found or already deleted.")))
    (fun _ => (db, mkResponse 500 (ErrorBody "Failed to delete devotional."))).

(** ** Requests and runs *)

Inductive Request : Type :=
| ListActive
| GetById (id : string)
| Create (verse content : option string)
| UpdatePartial (id : string) (verse content : option string)
| SoftDelete (id : string).

(** One request served at the second [now]. *)
Definition handle (db : Database) (now : Timestamp) (r : Request)
  : Database * Response :=
  match r with
  | ListActive => (db, listActive db)
  | GetById id => (db, getById db id)
  | Create verse content => create db now verse content
  | UpdatePartial id verse content => updatePartial db now id verse content
  | SoftDelete id => softDelete db now id
  end.

(** The store after a sequence of requests, each with its time. *)
Fixpoint run (db : Database) (trace : list (Timestamp * Request)) : Database :=
  match trace with
  | [] => db
  | (now, r) :: rest => run (fst (handle db now r)) rest
  end.

(** The rows of a store ([[]] when the table is missing). *)
Definition rows_of (db : Database) : list Devotional.t :=
  match db with
  | Some t => rows t
  | None => []
  end.

(** The scenario of the documentation: create, read, update the verse,
    delete, read again, list. *)
Definition john : option string := Some "John 3:16".
Definition loved : option string := Some "For God so loved...".
Definition db1 : Database := fst (create (Some empty_table) 100 john loved).
Definition db2 : Database :=
  fst (updatePartial db1 105 "1" (Some "Romans 8:28") None).
Definition db3 : Database := fst (softDelete db2 110 "1").

(** ** Notions used by the properties *)

(** The characters a decimal literal is made of. *)
Definition numeric_char (c : ascii) : bool :=
  isDigit c || Ascii.eqb c "+" || Ascii.eqb c "-" || Ascii.eqb c "."
  || Ascii.eqb c "e" || Ascii.eqb c "E".

(** A syntactically valid non-negative integer: one or more digits. *)
Definition nonneg_integer_syntax (id : string) : bool :=
  match list_ascii_of_string id with
  | [] => false
  | c :: r => forallb isDigit (c :: r)
  end.

(** An active record: [deleted_at] is absent. *)
Definition active (d : Devotional.t) : bool :=
  is_null (Devotional.deleted_at d).

(** The PRIMARY KEY constraint of the [id] column. *)
Definition pk_unique (db : Database) : Prop :=
  NoDup (map Devotional.id (rows_of db)).

(** Newest first: [created_at] never increases along the list. *)
Definition created_desc (a b : Devotional.t) : Prop :=
  Devotional.created_at b <= Devotional.created_at a.

(** The update policy in the words of the documentation: a field that is
    not supplied is left as it is, a supplied field replaces the stored
    value, and [updated_at] is refreshed. A field counts as supplied when
    it is a non-empty string. *)
Definition patch_fields (verse content : option string) (now : Timestamp)
    (d : Devotional.t) : Devotional.t :=
  Devotional.mk (Devotional.id d)
    (match verse with
     | Some v => if String.eqb v "" then Devotional.verse d else v
     | None => Devotional.verse d
     end)
    (match content with
     | Some c => if String.eqb c "" then Devotional.content d else c
     | None => Devotional.content d
     end)
    (Devotional.created_at d) (Some now) (Devotional.deleted_at d).

(** Two versions of a row that agree on every column but [deleted_at]. *)
Definition same_but_deleted_at (d d' : Devotional.t) : Prop :=
  Devotional.id d' = Devotional.id d
  /\ Devotional.verse d' = Devotional.verse d
  /\ Devotional.content d' = Devotional.content d
  /\ Devotional.created_at d' = Devotional.created_at d
  /\ Devotional.updated_at d' = Devotional.updated_at d.

(** A stored text is either kept or replaced by a non-empty one. *)
Definition kept_or_nonempty (old new : string) : Prop :=
  new = old \/ new <> "".

(** The rows whose id is among [ids], in the order of the list. *)
Definition restrict_to (ids : list Z) (l : list Devotional.t)
  : list Devotional.t :=
  filter (fun d => existsb (Z.eqb (Devotional.id d)) ids) l.

(** The rowid the next INSERT assigns. *)
Definition next_rowid (t : Table) : Z :=
  Z.max (seq t) (max_rowid (rows t)) + 1.

(** The rows a response lists ([[]] for any other body). *)
Definition listed (r : Response) : list Devotional.t :=
  match body r with
  | RowsBody l => l
  | _ => []
  end.

(** What a request can do to the store: nothing, rewrite active rows in
    place keeping their ids, or append one fresh active row. *)
Inductive step : Database -> Database -> Prop :=
| step_same (db : Database) : step db db
| step_update (t : Table) (f : Devotional.t -> Devotional.t) :
    (forall d, Devotional.id (f d) = Devotional.id d
               /\ (active d = false -> f d = d)) ->
    step (Some t) (Some (mkTable (map f (rows t)) (seq t)))
| step_insert (t : Table) (d : Devotional.t) :
    Devotional.id d = next_rowid t ->
    Devotional.updated_at d = None ->
    Devotional.deleted_at d = None ->
    step (Some t) (Some (mkTable (rows t ++ [d]) (next_rowid t))).

(** The record that [id] names is in the table and is logically deleted. *)
Definition deleted_for (v : Bound) (db : Database) : Prop :=
  (exists d, In d (rows_of db) /\ sql_id_eq (Devotional.id d) v = true)
  /\ (forall d, In d (rows_of db) ->
                sql_id_eq (Devotional.id d) v = true -> active d = false).

(** The UPDATE of a PATCH request, row by row. *)
Definition patch_row (id : string) (verse content : option string)
    (now : Timestamp) (d : Devotional.t) : Devotional.t :=
  if where_id_active (BText id) d then patch_fields verse content now d else d.

(** The UPDATE of a DELETE request, row by row. *)
Definition delete_row (id : string) (now : Timestamp) (d : Devotional.t)
  : Devotional.t :=
  if where_id_active (BNumber (Number id)) d then set_deleted_at now d else d.

Definition not_found_or_deleted : Response :=
  mkResponse 404 (ErrorBody "Devotional not found or deleted.").

Definition not_found_or_not_updated : Response :=
  mkResponse 404 (ErrorBody "Devotional not found or could not be updated.").

Definition not_found_or_already_deleted : Response :=
  mkResponse 404 (ErrorBody "Devotional not found or already deleted.").

Definition updated (id : string) (verse content : option string) : Response :=
  mkResponse 200
    (UpdatedBody ("Devotional with id " ++ id ++ " updated successfully")%string
       verse content).

Definition invalid_id : Response :=
  mkResponse 400 (ErrorBody "Invalid id provided. Id must be a number").

Definition fields_required : Response :=
  mkResponse 400 (ErrorBody "Both Verse and Content are required").

Definition created (id : Z) (v c : string) : Response :=
  mkResponse 201
    (CreatedBody "Devotional created successfully" id (Some v) (Some c)).

(** The row an INSERT adds. *)
Definition new_row (id : Z) (v c : string) (now : Timestamp) : Devotional.t :=
  Devotional.mk id v c now None None.

(** A table with one record, verse "V1" and content "C1". *)
Definition v1_c1 : Table :=
  mkTable [Devotional.mk 1 "V1" "C1" 100 None None] 1.

(** Three devotionals A, B and C created in this order at the given
    seconds. *)
Definition create_ABC (tA tB tC : Timestamp) (vA cA vB cB vC cC : string)
  : list (Timestamp * Request) :=
  [(tA, Create (Some vA) (Some cA));
   (tB, Create (Some vB) (Some cB));
   (tC, Create (Some vC) (Some cC))].

(** The PATCH handler of the second copy of the file (lines 327-360). It
    differs from the first in its messages and in its third branch, which
    runs the same statement with [.run(verse, content, id)]. *)
Definition updatePartial_second_copy (db : Database) (now : Timestamp)
    (id : string) (verse content : option string) : Database * Response :=
  try_catch
    (if isNaN (Number id)
     then Returns (db, mkResponse 400
                         (ErrorBody "Invalid id provided. Id must be a number"))
     else if falsy verse && falsy content
     then Returns (db, mkResponse 400
                         (ErrorBody "Atleast Verse or content is required"))
     else
       devotionals <-
         (if falsy verse then update_content db now content (BText id)
          else if falsy content then update_verse db now verse (BText id)
          else update_content_verse db now verse content (BText id)) ;;
       let (db', changes) := devotionals in
       if 0 <? changes
       then Returns (db', mkResponse 200
                            (UpdatedBody
                               ("Devotionals with id " ++ id
                                ++ " is updated successfully")%string
                               verse content))
       else Returns (db', mkResponse 404
                            (ErrorBody
                               "Devotional not found or could not be updated.")))
    (fun _ => (db, mkResponse 500 (ErrorBody "Failed to update devotionals."))).

(** ** Further notions: the rest of the file *)

(** A response that reports a failure: status 400 and above. *)
Definition is_failure (r : Response) : bool := 400 <=? status r.

(** The record that [DELETE /api/devotionals/:id] addresses. *)
Definition named_by (id : string) (d : Devotional.t) : bool :=
  sql_id_eq (Devotional.id d) (BNumber (Number id)).

(** Both texts of a row are non-empty. *)
Definition nonempty_fields (d : Devotional.t) : Prop :=
  Devotional.verse d <> "" /\ Devotional.content d <> "".

(** The ids [1, 2, ..., n] in this order. *)
Definition first_ids (n : nat) : list Z := map Z.of_nat (List.seq 1 n).

(** A trace whose seconds never go back, starting not before [from]. *)
Fixpoint chronological (from : Timestamp) (trace : list (Timestamp * Request))
  : Prop :=
  match trace with
  | [] => True
  | (now, _) :: rest => from <= now /\ chronological now rest
  end.

(** The three timestamps of a row in the order of its life: created,
    then updated, then deleted. *)
Definition life_ordered (d : Devotional.t) : Prop :=
  (forall u, Devotional.updated_at d = Some u -> Devotional.created_at d <= u)
  /\ (forall x, Devotional.deleted_at d = Some x ->
        Devotional.created_at d <= x
        /\ (forall u, Devotional.updated_at d = Some u -> u <= x)).

(** No timestamp of the row is later than [T]. *)
Definition not_after (T : Timestamp) (d : Devotional.t) : Prop :=
  Devotional.created_at d <= T
  /\ (forall u, Devotional.updated_at d = Some u -> u <= T)
  /\ (forall x, Devotional.deleted_at d = Some x -> x <= T).

(** The start of the server (lines 19-40): [isDbCreated] is whether the
    database file exists. A new file gets the table; an existing file is
    used as it is. [None] is the absent file, [Some content] the file
    with its content. *)
Definition open_database (file : option Database) : Database :=
  match file with
  | None => Some empty_table
  | Some content => content
  end.

(** *** Registration (lines 118-142) *)

Module User.

(** A row of [users]. *)
Record t : Type := mk {
  id : Z;
  username : string;
  password_hash : string
}.

End User.

(** The [users] table, created at every start (lines 43-49), with its
    [AUTOINCREMENT] counter. *)
Record Users : Type := mkUsers {
  user_rows : list User.t;
  user_seq : Z
}.

Inductive RegisterJson : Type :=
| RegisterError (error : string)
| Registered (message : string) (username : option string).

Record RegisterResponse : Type := mkRegisterResponse {
  register_status : Z;
  register_body : RegisterJson
}.

Definition max_user_id (l : list User.t) : Z :=
  fold_right (fun u acc => Z.max (User.id u) acc) 0 l.

Definition next_user_id (users : Users) : Z :=
  Z.max (user_seq users) (max_user_id (user_rows users)) + 1.

Section Registration.

(** [bcrypt.hashSync(password, saltRounds)] draws a random salt: the hash
    is a function of the randomness, the password and the rounds. *)
Variable Entropy : Type.
Variable hashSync : Entropy -> string -> Z -> string.

(** [INSERT INTO users (username, password_hash) VALUES(?, ?)]. *)
Definition insert_user (users : Users) (username password_hash : option string)
  : Exc Users :=
  u <- bind_text username ;;
  h <- bind_text password_hash ;;
  Returns (mkUsers (user_rows users ++ [User.mk (next_user_id users) u h])
                   (next_user_id users)).

(** [POST /api/register]. *)
Definition register (users : Users) (entropy : Entropy)
    (username password : option string) : Users * RegisterResponse :=
  try_catch
    (if falsy username || falsy password
     then Returns (users, mkRegisterResponse 400
                            (RegisterError
                               "Both username and password are required"))
     else
       let saltRounds := 10 in
       password_hash <-
         match password with
         | Some p => Returns (Some (hashSync entropy p saltRounds))
         | None => Throws "Illegal arguments: undefined, number"
         end ;;
       users' <- insert_user users username password_hash ;;
       Returns (users', mkRegisterResponse 201
                          (Registered "You are registered successfully"
                             username)))
    (fun _ => (users, mkRegisterResponse 500
                        (RegisterError "Registration Failed"))).

End Registration.

Arguments register {Entropy} hashSync users entropy username password.

(** ** Ids beyond the integers that binary64 holds *)

(** An id that, if it is an integer literal, is at most [2^53] in
    magnitude: up to there every integer is a binary64 value, so that the
    text that GET and PATCH bind and the [Number(id)] that DELETE binds
    are the same integer. *)
Definition safe_id (id : string) : bool :=
  match sql_numeric_text id with
  | Some (m, _) =>
      if integer_literal (trim sqlite3Isspace (list_ascii_of_string id))
      then Z.abs m <=? 2 ^ 53
      else true
  | None => true
  end.


(** A table whose last row is [2^53]. *)
Definition last_row_2_53 : Table :=
  mkTable [Devotional.mk 9007199254740992 "V1" "C1" 100 None None]
          9007199254740992.

(** ** Concrete evaluations *)

Example Number_abc : Number "abc" = NaN. Proof. reflexivity. Qed.
Example Number_7 : Number "7" = Finite 7 0. Proof. reflexivity. Qed.
Example Number_minus_1 : Number "-1" = Finite (-1) 0. Proof. reflexivity. Qed.
Example Number_1_5 : Number "1.5" = Finite 15 (-1). Proof. reflexivity. Qed.
Example Number_1e3 : Number " 1e3 " = Finite 1000 0. Proof. reflexivity. Qed.
Example Number_hex : Number "0x1F" = Finite 31 0. Proof. reflexivity. Qed.
Example Number_inf : Number "-Infinity" = Infinite true. Proof. reflexivity. Qed.
Example Number_dot : Number "." = NaN. Proof. reflexivity. Qed.
Example Number_1e : Number "1e" = NaN. Proof. reflexivity. Qed.
Example Number_12px : Number "12px" = NaN. Proof. reflexivity. Qed.
Example Number_0x : Number "0x" = NaN. Proof. reflexivity. Qed.
Example Number_sp : Number " " = Finite 0 0. Proof. reflexivity. Qed.
Example Number_exp : Number "25E-1" = Finite 25 (-1). Proof. reflexivity. Qed.
Example Number_frac : Number "-.5e+2" = Finite (-50) 0. Proof. reflexivity. Qed.
Example Number_oct : Number "0o17" = Finite 15 0. Proof. reflexivity. Qed.
Example Number_neg_hex : Number "-0x10" = NaN. Proof. reflexivity. Qed.
Example String_of_int_42 : String_of_int 42 = "42". Proof. reflexivity. Qed.

Example scenario_create :
  create (Some empty_table) 100 john loved
  = (Some (mkTable [Devotional.mk 1 "John 3:16" "For God so loved..." 100
                      None None] 1),
     mkResponse 201 (CreatedBody "Devotional created successfully" 1
                       john loved)).
Proof. reflexivity. Qed.

Example scenario_get :
  getById db1 "1"
  = mkResponse 200 (RowBody (Devotional.mk 1 "John 3:16"
                               "For God so loved..." 100 None None)).
Proof. reflexivity. Qed.

Example scenario_update :
  updatePartial db1 105 "1" (Some "Romans 8:28") None
  = (Some (mkTable [Devotional.mk 1 "Romans 8:28" "For God so loved..." 100
                      (Some 105) None] 1),
     mkResponse 200 (UpdatedBody "Devotional with id 1 updated successfully"
                       (Some "Romans 8:28") None)).
Proof. reflexivity. Qed.

Example scenario_delete :
  softDelete db2 110 "1"
  = (Some (mkTable [Devotional.mk 1 "Romans 8:28" "For God so loved..." 100
                      (Some 105) (Some 110)] 1),
     mkResponse 204 Empty).
Proof. reflexivity. Qed.

Example scenario_get_deleted : status (getById db3 "1") = 404.
Proof. reflexivity. Qed.

Example scenario_list_deleted : listActive db3 = mkResponse 200 (RowsBody []).
Proof. reflexivity. Qed.

(** An id in hexadecimal is a number for [Number] but not for the TEXT
    comparison of SQLite: GET does not find the record that DELETE, which
    binds [Number(id)], removes. *)
Example hex_id_get_and_delete :
  status (getById db1 "0x1") = 404
  /\ status (snd (softDelete db1 110 "0x1")) = 204.
Proof. split; reflexivity. Qed.

(** With both fields supplied the first copy of the handler stores each
    in its column; the second copy stores them swapped. *)
Example both_fields_first_copy :
  rows_of (fst (updatePartial (Some v1_c1) 105 "1" (Some "V2") (Some "C2")))
  = [Devotional.mk 1 "V2" "C2" 100 (Some 105) None].
Proof. reflexivity. Qed.

Example both_fields_second_copy :
  rows_of (fst (updatePartial_second_copy (Some v1_c1) 105 "1"
                  (Some "V2") (Some "C2")))
  = [Devotional.mk 1 "C2" "V2" 100 (Some 105) None].
Proof. reflexivity. Qed.

(** ** Rounding to binary64 *)

Example round_2_53_plus_1 :
  round_binary64 9007199254740993 0 = Finite 9007199254740992 0.
Proof. vm_compute. reflexivity. Qed.

Example round_2_53_plus_3 :
  round_binary64 9007199254740995 0 = Finite 9007199254740996 0.
Proof. vm_compute. reflexivity. Qed.

Example round_one_tenth :
  round_binary64 1 (-1)
  = Finite 1000000000000000055511151231257827021181583404541015625 (-55).
Proof. vm_compute. reflexivity. Qed.

Example round_near_one :
  round_binary64 10000000000000000001 (-19) = Finite 1 0.
Proof. vm_compute. reflexivity. Qed.

Example round_2_63 :
  round_binary64 9223372036854775807 0 = Finite 9223372036854775808 0.
Proof. vm_compute. reflexivity. Qed.

Example round_largest :
  round_binary64 17976931348623157 292 = Finite (2 ^ 1024 - 2 ^ 971) 0.
Proof. vm_compute. reflexivity. Qed.

Example round_overflow : round_binary64 (-18) 307 = Infinite true.
Proof. vm_compute. reflexivity. Qed.

Example round_smallest :
  round_binary64 5 (-324) = Finite (5 ^ 1074) (-1074).
Proof. vm_compute. reflexivity. Qed.

Example round_underflow : round_binary64 2 (-324) = Finite 0 0.
Proof. vm_compute. reflexivity. Qed.

Example Number_2_53_plus_1 :
  Number "9007199254740993" = Finite 9007199254740992 0.
Proof. vm_compute. reflexivity. Qed.

(** A text with a fraction is compared as the nearest REAL, by GET and
    PATCH as by DELETE. *)
Example text_near_one_is_row_1 :
  sql_id_eq 1 (BText "1.0000000000000000001") = true
  /\ sql_id_eq 1 (BNumber (Number "1.0000000000000000001")) = true.
Proof. vm_compute. split; reflexivity. Qed.

(** The largest rowid: its digits are that INTEGER as text, and [2^63]
    as a number. *)
Example largest_rowid_as_text_and_number :
  sql_id_eq 9223372036854775807 (BText "9223372036854775807") = true
  /\ sql_id_eq 9223372036854775807
       (BNumber (Number "9223372036854775807")) = false.
Proof. vm_compute. split; reflexivity. Qed.

Lemma round_half_even_exact (n d : Z) :
  0 < d -> round_half_even (n * d) d = n.
Proof.
  intros Hd. unfold round_half_even.
  rewrite Z.div_mul by lia. rewrite Z.mod_mul by lia.
  rewrite Z.mul_0_r.
  replace (d <? 0) with false by (symmetry; apply Z.ltb_ge; lia).
  replace (d =? 0) with false by (symmetry; apply Z.eqb_neq; lia).
  reflexivity.
Qed.

Lemma round_binary64_pos_integer (a : Z) :
  0 < a -> a < 2 ^ 53 ->
  round_binary64_pos a 1 = Some (a * 2 ^ (52 - Z.log2 a), Z.log2 a - 52).
Proof.
  intros H0 Hlt.
  pose proof (Z.log2_spec a H0) as [Hlo Hhi].
  pose proof (Z.log2_nonneg a) as Hl0.
  assert (Z.log2 a < 53) as Hl by (apply Z.log2_lt_pow2; lia).
  remember (Z.log2 a) as l eqn:Hldef.
  assert (binary64_exponent a 1 = l - 52) as HE.
  { unfold binary64_exponent. rewrite <- Hldef. change (Z.log2 1) with 0.
    replace (l - 0 - 53) with (l - 53) by lia.
    unfold scaled_quotient.
    replace (0 <=? l - 53) with false by (symmetry; apply Z.leb_gt; lia).
    rewrite Z.div_1_r.
    replace (2 ^ 53 <=? a * 2 ^ (- (l - 53))) with true.
    - lia.
    - symmetry. apply Z.leb_le.
      replace (2 ^ 53) with (2 ^ l * 2 ^ (- (l - 53)))
        by (rewrite <- Z.pow_add_r by lia; f_equal; lia).
      apply Z.mul_le_mono_nonneg_r; [apply Z.pow_nonneg; lia | exact Hlo]. }
  assert (forall n, round_half_even n 1 = n) as Hone.
  { intros n. rewrite <- (Z.mul_1_r n) at 1.
    apply round_half_even_exact. lia. }
  unfold round_binary64_pos. rewrite HE.
  destruct (0 <=? l - 52) eqn:Hs.
  - apply Z.leb_le in Hs. assert (l = 52) as El by lia. rewrite El.
    change (52 - 52) with 0. change (2 ^ 0) with 1.
    rewrite !Z.mul_1_r, Hone.
    replace (2 ^ 1024 <=? a) with false; [reflexivity|].
    symmetry. apply Z.leb_gt.
    apply Z.lt_trans with (2 ^ 53); [exact Hlt | reflexivity].
  - replace (- (l - 52)) with (52 - l) by lia.
    rewrite Hone. reflexivity.
Qed.

Lemma dyadic_to_decimal_integer (a k : Z) :
  0 < a -> 0 <= k -> dyadic_to_decimal (a * 2 ^ k) (- k) = (a, 0).
Proof.
  intros Ha Hk. unfold dyadic_to_decimal.
  destruct (0 <=? - k) eqn:Hs.
  - apply Z.leb_le in Hs. assert (k = 0) as -> by lia.
    simpl. f_equal. lia.
  - rewrite Z.opp_involutive.
    assert (0 < 2 ^ k) as Hp by (apply Z.pow_pos_nonneg; lia).
    assert (Z.gcd (a * 2 ^ k) (2 ^ k) = 2 ^ k) as Hg.
    { rewrite Z.gcd_comm. rewrite Z.mul_comm.
      apply Z.gcd_mul_diag_l. lia. }
    rewrite Hg, Z.log2_pow2 by lia.
    rewrite Z.div_mul by lia.
    replace (k - k) with 0 by lia. simpl. f_equal. lia.
Qed.

(** Up to [2^53] in magnitude every integer is a binary64 value. *)
Lemma round_binary64_integer (z : Z) :
  Z.abs z <= 2 ^ 53 -> round_binary64 z 0 = Finite z 0.
Proof.
  intros Hz. unfold round_binary64.
  destruct (z =? 0) eqn:H0; [apply Z.eqb_eq in H0; subst; reflexivity|].
  apply Z.eqb_neq in H0. change (0 <=? 0) with true. cbv iota.
  change (10 ^ 0) with 1. rewrite Z.mul_1_r.
  assert (Z.abs z = 2 ^ 53 \/ Z.abs z < 2 ^ 53) as [E | Hlt] by lia.
  - rewrite E.
    assert (z = 2 ^ 53 \/ z = - 2 ^ 53) as [-> | ->] by lia;
      vm_compute; reflexivity.
  - rewrite round_binary64_pos_integer by lia.
    replace (Z.log2 (Z.abs z) - 52) with (- (52 - Z.log2 (Z.abs z))) by lia.
    assert (Z.log2 (Z.abs z) < 53) by (apply Z.log2_lt_pow2; lia).
    rewrite dyadic_to_decimal_integer by lia.
    destruct (z <? 0) eqn:Hs.
    + apply Z.ltb_lt in Hs. f_equal. lia.
    + apply Z.ltb_ge in Hs. f_equal. lia.
Qed.

Lemma int64_to_number_safe (z : Z) :
  Z.abs z <= 2 ^ 53 -> int64_to_number z = z.
Proof.
  intros H. unfold int64_to_number. rewrite (round_binary64_integer z H).
  simpl. lia.
Qed.

Lemma round_binary64_not_NaN (m e : Z) : isNaN (round_binary64 m e) = false.
Proof.
  unfold round_binary64. destruct (m =? 0); [reflexivity|].
  destruct (round_binary64_pos _ _) as [[n E]|]; [|reflexivity].
  destruct (dyadic_to_decimal n E). reflexivity.
Qed.

Lemma isNaN_RoundMVResult (x : JsNumber) :
  isNaN (RoundMVResult x) = isNaN x.
Proof. destruct x; try reflexivity. apply round_binary64_not_NaN. Qed.

(** ** Lexical lemmas *)

Lemma span_app (p : ascii -> bool) (l a b : Chars) :
  span p l = (a, b) -> l = a ++ b /\ forallb p a = true.
Proof.
  revert a b; induction l as [|c r IH]; intros a b; simpl.
  - intros [= <- <-]; auto.
  - destruct (p c) eqn:Hc.
    + destruct (span p r) as [a' b'] eqn:Hs.
      intros [= <- <-]. destruct (IH a' b' eq_refl) as [-> Hf].
      simpl. rewrite Hc, Hf. auto.
    + intros [= <- <-]; auto.
Qed.

Lemma span_all (p : ascii -> bool) (l : Chars) :
  forallb p l = true -> span p l = (l, []).
Proof.
  induction l as [|c r IH]; simpl; auto.
  intros H. apply andb_prop in H as [Hc Hr].
  rewrite Hc, (IH Hr). reflexivity.
Qed.

Lemma dropWhile_suffix (p : ascii -> bool) (l : Chars) :
  exists w, l = w ++ dropWhile p l.
Proof.
  induction l as [|c r [w Hw]]; simpl.
  - exists []; reflexivity.
  - destruct (p c).
    + exists (c :: w). simpl. f_equal. exact Hw.
    + exists []. reflexivity.
Qed.

Lemma dropWhile_head (p : ascii -> bool) (l : Chars) (x : ascii) (r : Chars) :
  dropWhile p l = x :: r -> p x = false.
Proof.
  induction l as [|c l' IH]; simpl; [discriminate|].
  destruct (p c) eqn:Hc; auto.
  intros [= -> _]. exact Hc.
Qed.

Lemma dropWhile_sub (p q : ascii -> bool) (l : Chars) :
  (forall c, p c = true -> q c = true) ->
  dropWhile q (dropWhile p l) = dropWhile q l.
Proof.
  intros Hpq. induction l as [|c r IH]; simpl; auto.
  destruct (p c) eqn:Hc.
  - rewrite (Hpq _ Hc). exact IH.
  - reflexivity.
Qed.

Lemma dropWhile_none (p : ascii -> bool) (l : Chars) :
  forallb (fun c => negb (p c)) l = true -> dropWhile p l = l.
Proof.
  destruct l as [|c r]; simpl; auto.
  intros H. apply andb_prop in H as [Hc _].
  destruct (p c); [discriminate|reflexivity].
Qed.

Lemma forallb_rev (p : ascii -> bool) (l : Chars) :
  forallb p (List.rev l) = forallb p l.
Proof.
  induction l as [|c r IH]; simpl; auto.
  rewrite forallb_app, IH. simpl. rewrite andb_true_r. apply andb_comm.
Qed.

Lemma trim_none (p : ascii -> bool) (l : Chars) :
  forallb (fun c => negb (p c)) l = true -> trim p l = l.
Proof.
  intros H. unfold trim. rewrite (dropWhile_none p l H).
  rewrite dropWhile_none by (rewrite forallb_rev; exact H).
  apply rev_involutive.
Qed.

Lemma sqlite3Isspace_StrWhiteSpaceChar (c : ascii) :
  sqlite3Isspace c = true -> StrWhiteSpaceChar c = true.
Proof.
  unfold sqlite3Isspace, StrWhiteSpaceChar. intros ->. reflexivity.
Qed.

Lemma numeric_char_not_space (c : ascii) :
  numeric_char c = true -> StrWhiteSpaceChar c = false.
Proof.
  destruct c as [[|] [|] [|] [|] [|] [|] [|] [|]];
    vm_compute; intros H; congruence.
Qed.

Lemma isDigit_numeric_char (c : ascii) :
  isDigit c = true -> numeric_char c = true.
Proof. unfold numeric_char. intros ->. reflexivity. Qed.

Lemma forallb_impl (p q : ascii -> bool) (l : Chars) :
  (forall c, p c = true -> q c = true) ->
  forallb p l = true -> forallb q l = true.
Proof.
  intros Hpq. induction l as [|c r IH]; simpl; auto.
  intros H. apply andb_prop in H as [Hc Hr].
  rewrite (Hpq _ Hc), (IH Hr). reflexivity.
Qed.

Lemma signed_numeric (cs r : Chars) (neg : bool) :
  signed cs = (neg, r) ->
  forallb numeric_char r = true -> forallb numeric_char cs = true.
Proof.
  destruct cs as [|c cs']; simpl.
  - intros [= <- <-]; auto.
  - destruct (Ascii.eqb c "+") eqn:Hp.
    + apply Ascii.eqb_eq in Hp; subst c. intros [= <- <-] H. simpl. exact H.
    + destruct (Ascii.eqb c "-") eqn:Hm.
      * apply Ascii.eqb_eq in Hm; subst c. intros [= <- <-] H. simpl. exact H.
      * assert (signed (c :: cs') = (false, c :: cs')) as E.
        { destruct c as [[|] [|] [|] [|] [|] [|] [|] [|]];
            try reflexivity; discriminate. }
        simpl in E. rewrite E. intros [= <- <-] H. exact H.
Qed.

Lemma exponent_part_numeric (cs : Chars) (e : Z) :
  exponent_part cs = Some e -> forallb numeric_char cs = true.
Proof.
  destruct cs as [|c r]; simpl; auto.
  destruct (Ascii.eqb c "e" || Ascii.eqb c "E")%bool eqn:Hc; [|discriminate].
  destruct (signed r) as [neg ds] eqn:Hs.
  destruct (span isDigit ds) as [a b] eqn:Hsp.
  destruct a as [|d a']; [discriminate|].
  destruct b; [|discriminate]. intros _.
  apply span_app in Hsp as [-> Hd]. rewrite app_nil_r in Hs.
  apply andb_true_intro; split.
  - unfold numeric_char. apply orb_prop in Hc as [-> | ->];
      rewrite ?orb_true_r; reflexivity.
  - apply (signed_numeric _ _ _ Hs).
    apply (forallb_impl isDigit); [exact isDigit_numeric_char | exact Hd].
Qed.

Lemma unsigned_decimal_numeric (cs : Chars) (m e : Z) :
  unsigned_decimal cs = Some (m, e) -> forallb numeric_char cs = true.
Proof.
  unfold unsigned_decimal.
  destruct (span isDigit cs) as [ip r1] eqn:Hip.
  apply span_app in Hip as [-> Hd].
  assert (forallb numeric_char ip = true) as Hip
    by (apply (forallb_impl isDigit); [exact isDigit_numeric_char | exact Hd]).
  rewrite forallb_app, Hip. simpl.
  assert (forall fp r2,
             match (ip ++ fp)%list with
             | [] => None
             | _ :: _ =>
                 match exponent_part r2 with
                 | Some e0 =>
                     Some (digits_value (ip ++ fp),
                           e0 - Z.of_nat (List.length fp))
                 | None => None
                 end
             end = Some (m, e) -> forallb numeric_char r2 = true) as Hexp.
  { intros fp r2. destruct (ip ++ fp)%list; [discriminate|].
    destruct (exponent_part r2) eqn:He; [|discriminate].
    intros _. exact (exponent_part_numeric _ _ He). }
  destruct r1 as [|c r].
  - intros _. reflexivity.
  - destruct (Ascii.eqb c ".") eqn:Hdot.
    + apply Ascii.eqb_eq in Hdot; subst c.
      destruct (span isDigit r) as [fp r2] eqn:Hfp.
      apply span_app in Hfp as [-> Hf]. intros H.
      simpl. rewrite forallb_app, (Hexp _ _ H).
      rewrite (forallb_impl isDigit numeric_char fp isDigit_numeric_char Hf).
      reflexivity.
    + intros H. apply (Hexp [] (c :: r)). revert H.
      destruct c as [[|] [|] [|] [|] [|] [|] [|] [|]];
        first [ cbv in Hdot; discriminate Hdot | intros H; exact H ].
Qed.

Lemma decimal_literal_numeric (cs : Chars) (m e : Z) :
  decimal_literal cs = Some (m, e) -> forallb numeric_char cs = true.
Proof.
  unfold decimal_literal. destruct (signed cs) as [neg r] eqn:Hs.
  destruct (unsigned_decimal r) as [[m' e']|] eqn:Hu; [|discriminate].
  intros _. apply (signed_numeric _ _ _ Hs).
  exact (unsigned_decimal_numeric _ _ _ Hu).
Qed.

Lemma decimal_literal_nil : decimal_literal [] = None.
Proof. reflexivity. Qed.

(** A text that SQLite reads as a number has the same JavaScript white
    space around it, whatever else JavaScript would trim. *)
Lemma trim_agree (l : Chars) (m e : Z) :
  decimal_literal (trim sqlite3Isspace l) = Some (m, e) ->
  trim StrWhiteSpaceChar l = trim sqlite3Isspace l.
Proof.
  intros H. pose proof (decimal_literal_numeric _ _ _ H) as Hnum.
  assert (trim sqlite3Isspace l <> []) as Hne
    by (intros E; rewrite E in H; discriminate).
  unfold trim in *.
  set (l1 := dropWhile sqlite3Isspace l) in *.
  set (u := dropWhile sqlite3Isspace (List.rev l1)) in *.
  rewrite forallb_rev in Hnum.
  assert (dropWhile StrWhiteSpaceChar (List.rev l1) = u) as Hu.
  { rewrite <- (dropWhile_sub sqlite3Isspace StrWhiteSpaceChar)
      by exact sqlite3Isspace_StrWhiteSpaceChar.
    fold u. apply dropWhile_none.
    apply (forallb_impl numeric_char); [|exact Hnum].
    intros c Hc. rewrite (numeric_char_not_space c Hc). reflexivity. }
  assert (dropWhile StrWhiteSpaceChar l = l1) as Hl1.
  { rewrite <- (dropWhile_sub sqlite3Isspace StrWhiteSpaceChar)
      by exact sqlite3Isspace_StrWhiteSpaceChar.
    fold l1.
    destruct (dropWhile_suffix sqlite3Isspace (List.rev l1)) as [w Hw].
    fold u in Hw.
    assert (l1 = List.rev u ++ List.rev w) as E.
    { rewrite <- rev_app_distr, <- Hw, rev_involutive. reflexivity. }
    destruct (List.rev u) as [|x ru] eqn:Hru; [congruence|].
    rewrite E. simpl.
    assert (In x (List.rev u)) as Hin by (rewrite Hru; left; reflexivity).
    apply in_rev in Hin.
    rewrite forallb_forall in Hnum.
    rewrite (numeric_char_not_space x (Hnum x Hin)). reflexivity. }
  rewrite Hl1, Hu. reflexivity.
Qed.

(** The literals SQLite reads in a TEXT are literals for [Number], with
    the same mathematical value. *)
Lemma sql_numeric_text_StringNumericValue (s : string) (m e : Z) :
  sql_numeric_text s = Some (m, e) -> StringNumericValue s = Finite m e.
Proof.
  unfold sql_numeric_text, StringNumericValue. intros H.
  rewrite (trim_agree _ _ _ H).
  destruct (trim sqlite3Isspace (list_ascii_of_string s)) eqn:Ht.
  - discriminate.
  - rewrite H. reflexivity.
Qed.

Lemma sql_numeric_text_Number (s : string) (m e : Z) :
  sql_numeric_text s = Some (m, e) -> Number s = round_binary64 m e.
Proof.
  intros H. unfold Number.
  rewrite (sql_numeric_text_StringNumericValue s m e H). reflexivity.
Qed.

Lemma unsigned_decimal_digits (l : Chars) :
  l <> [] -> forallb isDigit l = true ->
  unsigned_decimal l = Some (digits_value l, 0).
Proof.
  intros Hne Hd. destruct l as [|c r]; [congruence|].
  unfold unsigned_decimal. rewrite (span_all _ _ Hd).
  rewrite app_nil_r. reflexivity.
Qed.



(** A number is equal to at most one integer. *)
Lemma denotes_inj (n n' m e : Z) :
  denotes n m e = true -> denotes n' m e = true -> n = n'.
Proof.
  unfold denotes. destruct (0 <=? e) eqn:He.
  - intros H1 H2. apply Z.eqb_eq in H1, H2. congruence.
  - intros H1 H2. apply Z.eqb_eq in H1, H2. apply Z.leb_gt in He.
    assert (0 < 10 ^ (- e)) by (apply Z.pow_pos_nonneg; lia).
    nia.
Qed.

Lemma sql_id_eq_inj (n n' : Z) (v : Bound) :
  sql_id_eq n v = true -> sql_id_eq n' v = true -> n = n'.
Proof.
  destruct v as [s|x]; cbn [sql_id_eq].
  - destruct (sql_text_value s) as [[| |m e]|]; try discriminate.
    apply denotes_inj.
  - destruct x; try discriminate. apply denotes_inj.
Qed.

(** ** [String(n)] read back *)

Lemma string_of_uint_digits (d : Decimal.uint) :
  forallb isDigit
    (list_ascii_of_string (DecimalString.NilEmpty.string_of_uint d)) = true.
Proof. induction d; simpl; auto. Qed.

Lemma digits_value_string_of_uint (d : Decimal.uint) :
  digits_value
    (list_ascii_of_string (DecimalString.NilEmpty.string_of_uint d))
  = Z.of_uint d.
Proof.
  unfold digits_value.
  rewrite string_of_list_ascii_of_string, DecimalString.NilEmpty.usu.
  reflexivity.
Qed.

Lemma isDigit_not_space (c : ascii) :
  isDigit c = true -> negb (sqlite3Isspace c) = true.
Proof.
  destruct c as [[|] [|] [|] [|] [|] [|] [|] [|]];
    vm_compute; intros H; congruence.
Qed.

Lemma signed_digit (c : ascii) (r : Chars) :
  isDigit c = true -> signed (c :: r) = (false, c :: r).
Proof.
  destruct c as [[|] [|] [|] [|] [|] [|] [|] [|]];
    try reflexivity; vm_compute; intros H; congruence.
Qed.

Lemma decimal_literal_digits (l : Chars) :
  l <> [] -> forallb isDigit l = true ->
  decimal_literal l = Some (digits_value l, 0).
Proof.
  intros Hne Hd. destruct l as [|c r]; [congruence|].
  unfold decimal_literal.
  rewrite signed_digit by (simpl in Hd; apply andb_prop in Hd; tauto).
  rewrite unsigned_decimal_digits by assumption. reflexivity.
Qed.

Lemma integer_literal_digits (l : Chars) :
  l <> [] -> forallb isDigit l = true -> integer_literal l = true.
Proof.
  intros Hne Hd. destruct l as [|c r]; [congruence|].
  unfold integer_literal.
  rewrite signed_digit by (simpl in Hd; apply andb_prop in Hd; tauto).
  exact Hd.
Qed.

(** A text of digits up to [2^53]: the INTEGER SQLite reads and the
    number [Number] reads are its value. *)
Lemma digits_text_value (s : string) :
  list_ascii_of_string s <> [] ->
  forallb isDigit (list_ascii_of_string s) = true ->
  digits_value (list_ascii_of_string s) <= 2 ^ 53 ->
  sql_numeric_text s = Some (digits_value (list_ascii_of_string s), 0)
  /\ sql_text_value s = Some (Finite (digits_value (list_ascii_of_string s)) 0)
  /\ Number s = Finite (digits_value (list_ascii_of_string s)) 0
  /\ safe_id s = true.
Proof.
  intros Hne Hd Hle.
  assert (0 <= digits_value (list_ascii_of_string s)) as H0.
  { unfold digits_value.
    destruct (DecimalString.NilEmpty.uint_of_string _); [|lia].
    unfold Z.of_uint. lia. }
  assert (trim sqlite3Isspace (list_ascii_of_string s)
          = list_ascii_of_string s) as Ht.
  { apply trim_none. apply (forallb_impl isDigit);
      [exact isDigit_not_space | exact Hd]. }
  assert (sql_numeric_text s
          = Some (digits_value (list_ascii_of_string s), 0)) as Hs.
  { unfold sql_numeric_text. rewrite Ht.
    apply decimal_literal_digits; assumption. }
  split; [exact Hs|]. split; [|split].
  - unfold sql_text_value. rewrite Hs, Ht.
    rewrite (integer_literal_digits _ Hne Hd).
    replace (fits_int64 _) with true; [reflexivity|].
    symmetry. unfold fits_int64. apply andb_true_intro.
    split; apply Z.leb_le; [|assert (2 ^ 53 <= 2 ^ 63 - 1) by (cbv; discriminate)]; lia.
  - rewrite (sql_numeric_text_Number _ _ _ Hs).
    apply round_binary64_integer. lia.
  - unfold safe_id. rewrite Hs, Ht, (integer_literal_digits _ Hne Hd).
    apply Z.leb_le. lia.
Qed.

Lemma sql_numeric_text_String_of_int (p : positive) :
  sql_numeric_text (String_of_int (Z.pos p)) = Some (Z.pos p, 0).
Proof.
  unfold sql_numeric_text, String_of_int. simpl Z.to_int.
  unfold DecimalString.NilZero.string_of_int,
    DecimalString.NilZero.string_of_uint.
  pose proof (DecimalPos.Unsigned.to_uint_nonnil p) as Hnn.
  pose proof (string_of_uint_digits (Pos.to_uint p)) as Hd.
  pose proof (digits_value_string_of_uint (Pos.to_uint p)) as Hv.
  destruct (Pos.to_uint p) as [|u|u|u|u|u|u|u|u|u|u] eqn:Hu;
    [congruence| | | | | | | | | |];
    (rewrite trim_none
       by (apply (forallb_impl isDigit);
           [exact isDigit_not_space | exact Hd]);
     rewrite decimal_literal_digits by (simpl; congruence || exact Hd);
     rewrite Hv; unfold Z.of_uint; rewrite <- Hu;
     rewrite DecimalPos.Unsigned.of_to; reflexivity).
Qed.

Lemma String_of_int_digits (p : positive) :
  list_ascii_of_string (String_of_int (Z.pos p)) <> []
  /\ forallb isDigit (list_ascii_of_string (String_of_int (Z.pos p))) = true
  /\ digits_value (list_ascii_of_string (String_of_int (Z.pos p))) = Z.pos p.
Proof.
  unfold String_of_int. simpl Z.to_int.
  unfold DecimalString.NilZero.string_of_int,
    DecimalString.NilZero.string_of_uint.
  pose proof (DecimalPos.Unsigned.to_uint_nonnil p) as Hnn.
  pose proof (string_of_uint_digits (Pos.to_uint p)) as Hd.
  pose proof (digits_value_string_of_uint (Pos.to_uint p)) as Hv.
  destruct (Pos.to_uint p) as [|u|u|u|u|u|u|u|u|u|u] eqn:Hu;
    [congruence| | | | | | | | | |];
    (split; [simpl; discriminate|]; split; [exact Hd|];
     rewrite Hv; unfold Z.of_uint; rewrite <- Hu;
     rewrite DecimalPos.Unsigned.of_to; reflexivity).
Qed.

Lemma Number_String_of_int (p : positive) :
  Z.pos p <= 2 ^ 53 ->
  Number (String_of_int (Z.pos p)) = Finite (Z.pos p) 0.
Proof.
  intros Hp. destruct (String_of_int_digits p) as (Hne & Hd & Hv).
  destruct (digits_text_value _ Hne Hd) as (_ & _ & HN & _);
    rewrite Hv in *; [exact Hp | exact HN].
Qed.

Lemma denotes_integer (n m : Z) : denotes n m 0 = (n =? m).
Proof. unfold denotes. simpl. rewrite Z.mul_1_r. reflexivity. Qed.

(** The decimal text of a positive rowid up to [2^53] matches that rowid
    and no other, bound as TEXT or as a number. *)
Lemma sql_id_eq_String_of_int (n : Z) (p : positive) (as_number : bool) :
  Z.pos p <= 2 ^ 53 ->
  sql_id_eq n (if as_number
               then BNumber (Number (String_of_int (Z.pos p)))
               else BText (String_of_int (Z.pos p)))
  = (n =? Z.pos p).
Proof.
  intros Hp. destruct (String_of_int_digits p) as (Hne & Hd & Hv).
  destruct (digits_text_value _ Hne Hd) as (_ & HT & HN & _);
    [rewrite Hv; exact Hp|]. rewrite Hv in *.
  destruct as_number; cbn [sql_id_eq].
  - rewrite HN. apply denotes_integer.
  - rewrite HT. apply denotes_integer.
Qed.

(** ** The handlers, statement by statement *)

Lemma map_if_false {A : Type} (w : A -> bool) (g : A -> A) (l : list A) :
  (forall d, In d l -> w d = false) ->
  map (fun d => if w d then g d else d) l = l.
Proof.
  induction l as [|x r IH]; simpl; auto.
  intros H. rewrite (H x) by auto. f_equal. apply IH. auto.
Qed.

Lemma filter_none {A : Type} (w : A -> bool) (l : list A) :
  (forall d, In d l -> w d = false) -> filter w l = [].
Proof.
  induction l as [|x r IH]; simpl; auto.
  intros H. rewrite (H x) by auto. apply IH. auto.
Qed.

Lemma filter_some {A : Type} (w : A -> bool) (l : list A) (d : A) :
  In d l -> w d = true -> (0 <? Z.of_nat (List.length (filter w l))) = true.
Proof.
  intros Hin Hw.
  assert (In d (filter w l)) as H by (apply filter_In; auto).
  destruct (filter w l); [contradiction|]. reflexivity.
Qed.

Lemma table_eta (t : Table) : mkTable (rows t) (seq t) = t.
Proof. destruct t; reflexivity. Qed.

Lemma falsy_false (v : option string) :
  falsy v = false -> exists c s, v = Some (String c s).
Proof.
  destruct v as [[|c s]|]; simpl; try discriminate. eauto.
Qed.

(** The PATCH handler on a table, for an id that is a number and a body
    with a field: the three UPDATE statements are one row-wise patch. *)
Lemma updatePartial_eq (t : Table) (now : Timestamp) (id : string)
    (verse content : option string) :
  isNaN (Number id) = false ->
  falsy verse && falsy content = false ->
  updatePartial (Some t) now id verse content
  = (Some (mkTable (map (patch_row id verse content now) (rows t)) (seq t)),
     if 0 <? Z.of_nat (List.length
                         (filter (where_id_active (BText id)) (rows t)))
     then updated id verse content
     else not_found_or_not_updated).
Proof.
  intros Hid Hf. unfold updatePartial. rewrite Hid, Hf.
  destruct verse as [[|a v]|], content as [[|b c]|];
    try discriminate Hf; simpl;
    match goal with
    | |- context [0 <? ?n] => destruct (0 <? n)
    end; reflexivity.
Qed.

(** The DELETE handler on a table, for an id that is a number. *)
Lemma softDelete_eq (t : Table) (now : Timestamp) (id : string) :
  isNaN (Number id) = false ->
  softDelete (Some t) now id
  = (Some (mkTable (map (delete_row id now) (rows t)) (seq t)),
     if 0 <? Z.of_nat (List.length
                         (filter (where_id_active (BNumber (Number id)))
                            (rows t)))
     then mkResponse 204 Empty
     else not_found_or_already_deleted).
Proof.
  intros Hid. unfold softDelete. rewrite Hid. simpl.
  match goal with
  | |- context [0 <? ?n] => destruct (0 <? n)
  end; reflexivity.
Qed.

(** The POST handler on a table, for a body with both fields. *)
Lemma create_eq (t : Table) (now : Timestamp) (v c : string) :
  v <> "" -> c <> "" ->
  create (Some t) now (Some v) (Some c)
  = (Some (mkTable (rows t ++ [Devotional.mk (next_rowid t) v c now None None])
                   (next_rowid t)),
     mkResponse 201 (CreatedBody "Devotional created successfully"
                       (int64_to_number (next_rowid t)) (Some v) (Some c))).
Proof.
  intros Hv Hc. unfold create.
  destruct v as [|a v]; [congruence|]. destruct c as [|b c]; [congruence|].
  reflexivity.
Qed.

Lemma create_invalid (db : Database) (now : Timestamp)
    (verse content : option string) :
  falsy verse || falsy content = true ->
  create db now verse content
  = (db, mkResponse 400 (ErrorBody "Both Verse and Content are required")).
Proof. intros H. unfold create. rewrite H. reflexivity. Qed.

(** The GET handler on a table, for an id that is a number. *)
Lemma getById_eq (t : Table) (id : string) :
  isNaN (Number id) = false ->
  getById (Some t) id
  = match find (where_id_active (BText id)) (rows t) with
    | Some d => mkResponse 200 (RowBody d)
    | None => not_found_or_deleted
    end.
Proof.
  intros Hid. unfold getById. rewrite Hid. simpl.
  destruct (find _ _); reflexivity.
Qed.

(** Malformed ids stop every handler before the store is touched. *)
Lemma invalid_id_responses (db : Database) (now : Timestamp) (id : string)
    (verse content : option string) :
  isNaN (Number id) = true ->
  let bad := mkResponse 400
               (ErrorBody "Invalid id provided. Id must be a number") in
  getById db id = bad
  /\ updatePartial db now id verse content = (db, bad)
  /\ softDelete db now id = (db, bad).
Proof.
  intros H. unfold getById, updatePartial, softDelete. rewrite H.
  repeat split.
Qed.

(** With the table missing every statement throws. *)
Lemma no_table_responses (now : Timestamp) (id : string)
    (verse content : option string) :
  fst (create None now verse content) = None
  /\ fst (updatePartial None now id verse content) = None
  /\ fst (softDelete None now id) = None.
Proof.
  unfold create, updatePartial, softDelete.
  destruct (isNaN (Number id)), (falsy verse), (falsy content);
    repeat split.
Qed.

(** ** Every request is a step *)

Lemma patch_row_frame (id : string) (verse content : option string)
    (now : Timestamp) (d : Devotional.t) :
  Devotional.id (patch_row id verse content now d) = Devotional.id d
  /\ (active d = false -> patch_row id verse content now d = d).
Proof.
  unfold patch_row, where_id_active, active.
  destruct (sql_id_eq _ _), (is_null _); simpl;
    (split; [reflexivity | intros H; first [discriminate H | reflexivity]]).
Qed.

Lemma delete_row_frame (id : string) (now : Timestamp) (d : Devotional.t) :
  Devotional.id (delete_row id now d) = Devotional.id d
  /\ (active d = false -> delete_row id now d = d).
Proof.
  unfold delete_row, where_id_active, active.
  destruct (sql_id_eq _ _), (is_null _); simpl;
    (split; [reflexivity | intros H; first [discriminate H | reflexivity]]).
Qed.

Lemma updatePartial_step (db : Database) (now : Timestamp) (id : string)
    (verse content : option string) :
  step db (fst (updatePartial db now id verse content)).
Proof.
  destruct (isNaN (Number id)) eqn:Hid.
  - destruct (invalid_id_responses db now id verse content Hid)
      as (_ & -> & _). apply step_same.
  - destruct db as [t|].
    + destruct (falsy verse && falsy content) eqn:Hf.
      * unfold updatePartial. rewrite Hid, Hf. apply step_same.
      * rewrite (updatePartial_eq t now id verse content Hid Hf).
        apply step_update. intros d. apply patch_row_frame.
    + destruct (no_table_responses now id verse content) as (_ & -> & _).
      apply step_same.
Qed.

Lemma softDelete_step (db : Database) (now : Timestamp) (id : string) :
  step db (fst (softDelete db now id)).
Proof.
  destruct (isNaN (Number id)) eqn:Hid.
  - destruct (invalid_id_responses db now id None None Hid)
      as (_ & _ & ->). apply step_same.
  - destruct db as [t|].
    + rewrite (softDelete_eq t now id Hid).
      apply step_update. intros d. apply delete_row_frame.
    + destruct (no_table_responses now id None None) as (_ & _ & ->).
      apply step_same.
Qed.

Lemma create_step (db : Database) (now : Timestamp)
    (verse content : option string) :
  step db (fst (create db now verse content)).
Proof.
  destruct (falsy verse || falsy content) eqn:Hf.
  - rewrite (create_invalid db now verse content Hf). apply step_same.
  - apply orb_false_elim in Hf as [Hv Hc].
    destruct (falsy_false _ Hv) as (a & v & ->).
    destruct (falsy_false _ Hc) as (b & c & ->).
    destruct db as [t|].
    + rewrite create_eq by discriminate. apply step_insert; reflexivity.
    + apply step_same.
Qed.

Lemma handle_step (db : Database) (now : Timestamp) (r : Request) :
  step db (fst (handle db now r)).
Proof.
  destruct r; simpl.
  - apply step_same.
  - apply step_same.
  - apply create_step.
  - apply updatePartial_step.
  - apply softDelete_step.
Qed.

(** ** What steps preserve *)

Lemma max_rowid_ge (l : list Devotional.t) (d : Devotional.t) :
  In d l -> Devotional.id d <= max_rowid l.
Proof.
  induction l as [|x r IH]; simpl; [contradiction|].
  intros [-> | H]; [lia|]. specialize (IH H). lia.
Qed.

Lemma next_rowid_fresh (t : Table) (d : Devotional.t) :
  In d (rows t) -> Devotional.id d < next_rowid t.
Proof.
  intros H. apply max_rowid_ge in H. unfold next_rowid. lia.
Qed.

Lemma next_rowid_pos (t : Table) : 0 < next_rowid t.
Proof.
  unfold next_rowid.
  assert (0 <= max_rowid (rows t)).
  { induction (rows t) as [|x r IH]; simpl; lia. }
  lia.
Qed.

(** A logically deleted row is never touched again. *)
Lemma step_frozen (db db' : Database) (i : nat) (d : Devotional.t) :
  step db db' ->
  nth_error (rows_of db) i = Some d -> active d = false ->
  nth_error (rows_of db') i = Some d.
Proof.
  intros Hs Hn Ha. destruct Hs as [db|t f Hf|t x _ _ _]; simpl in *.
  - exact Hn.
  - rewrite nth_error_map, Hn. simpl. f_equal. apply Hf. exact Ha.
  - rewrite nth_error_app1; [exact Hn|].
    apply nth_error_Some. congruence.
Qed.

(** The ids stay pairwise distinct. *)
Lemma step_pk_unique (db db' : Database) :
  step db db' -> pk_unique db -> pk_unique db'.
Proof.
  unfold pk_unique. intros Hs Hu.
  destruct Hs as [db|t f Hf|t x Hx _ _]; simpl in *.
  - exact Hu.
  - rewrite map_map.
    rewrite (map_ext _ Devotional.id); [exact Hu|].
    intros d. apply Hf.
  - rewrite map_app. simpl.
    apply NoDup_app; [exact Hu | repeat constructor; intros [] |].
    intros a Ha [<- | []].
    apply in_map_iff in Ha as (d & Hd & Hin).
    apply next_rowid_fresh in Hin. lia.
Qed.

(** A record that is deleted stays deleted, and its id is never given to
    another row. *)
Lemma step_deleted_for (v : Bound) (db db' : Database) :
  step db db' -> deleted_for v db -> deleted_for v db'.
Proof.
  intros Hs [(d0 & Hin0 & Hm0) Hall].
  destruct Hs as [db|t f Hf|t x Hx _ _]; simpl in *.
  - split; eauto.
  - split.
    + exists (f d0). split; [apply in_map; exact Hin0|].
      destruct (Hf d0) as [-> _]. exact Hm0.
    + intros d' Hin' Hm'. apply in_map_iff in Hin' as (d & <- & Hin).
      destruct (Hf d) as [Hid Hfr]. rewrite Hid in Hm'.
      rewrite (Hfr (Hall d Hin Hm')). exact (Hall d Hin Hm').
  - split.
    + exists d0. split; [apply in_or_app; left; exact Hin0 | exact Hm0].
    + intros d' Hin' Hm'. apply in_app_or in Hin' as [Hin | [<- | []]].
      * exact (Hall d' Hin Hm').
      * exfalso. pose proof (sql_id_eq_inj _ _ _ Hm0 Hm') as E.
        apply next_rowid_fresh in Hin0. lia.
Qed.

Lemma run_steps (P : Database -> Prop) :
  (forall db db', step db db' -> P db -> P db') ->
  forall trace db, P db -> P (run db trace).
Proof.
  intros HP trace. induction trace as [|[now r] rest IH]; simpl; auto.
  intros db H. apply IH. apply (HP db); [apply handle_step | exact H].
Qed.

(** The primary key holds of the empty table and after every run. *)
Lemma run_pk_unique (db : Database) (trace : list (Timestamp * Request)) :
  pk_unique db -> pk_unique (run db trace).
Proof. apply run_steps. exact step_pk_unique. Qed.

Lemma empty_table_pk_unique : pk_unique (Some empty_table).
Proof. constructor. Qed.

(** ** [ORDER BY created_at DESC] *)

Lemma insert_desc_perm (d : Devotional.t) (l : list Devotional.t) :
  Permutation (insert_desc d l) (d :: l).
Proof.
  induction l as [|x r IH]; simpl.
  - apply Permutation_refl.
  - destruct (Devotional.created_at d <? Devotional.created_at x).
    + apply perm_trans with (x :: d :: r).
      * apply perm_skip. exact IH.
      * apply perm_swap.
    + apply Permutation_refl.
Qed.

Lemma order_by_created_at_desc_perm (l : list Devotional.t) :
  Permutation (order_by_created_at_desc l) l.
Proof.
  induction l as [|x r IH]; simpl.
  - apply perm_nil.
  - apply perm_trans with (x :: order_by_created_at_desc r).
    + apply insert_desc_perm.
    + apply perm_skip. exact IH.
Qed.

Lemma insert_desc_sorted (d : Devotional.t) (l : list Devotional.t) :
  StronglySorted created_desc l ->
  StronglySorted created_desc (insert_desc d l).
Proof.
  induction 1 as [|x r Hr IH Hx]; simpl.
  - constructor; constructor.
  - destruct (Devotional.created_at d <? Devotional.created_at x) eqn:Hlt.
    + apply Z.ltb_lt in Hlt. constructor; [exact IH|].
      apply Forall_forall. intros y Hy.
      apply (Permutation_in _ (insert_desc_perm d r)) in Hy.
      destruct Hy as [<- | Hy].
      * unfold created_desc. lia.
      * rewrite Forall_forall in Hx. exact (Hx y Hy).
    + apply Z.ltb_ge in Hlt. constructor.
      * constructor; assumption.
      * constructor; [exact Hlt|].
        apply Forall_forall. intros y Hy.
        rewrite Forall_forall in Hx. specialize (Hx y Hy).
        unfold created_desc in *. lia.
Qed.

Lemma order_by_created_at_desc_sorted (l : list Devotional.t) :
  StronglySorted created_desc (order_by_created_at_desc l).
Proof.
  induction l as [|x r IH]; simpl.
  - constructor.
  - apply insert_desc_sorted. exact IH.
Qed.

(** Inserting a row that a filter rejects does not show through it. *)
Lemma filter_insert_desc_out (q : Devotional.t -> bool) (d : Devotional.t)
    (l : list Devotional.t) :
  q d = false -> filter q (insert_desc d l) = filter q l.
Proof.
  intros Hq. induction l as [|x r IH]; simpl.
  - rewrite Hq. reflexivity.
  - destruct (Devotional.created_at d <? Devotional.created_at x); simpl.
    + rewrite IH. reflexivity.
    + rewrite Hq. reflexivity.
Qed.

Lemma order_by_created_at_desc_app (l1 l2 : list Devotional.t) :
  order_by_created_at_desc (l1 ++ l2)
  = fold_right insert_desc (order_by_created_at_desc l2) l1.
Proof. unfold order_by_created_at_desc. apply fold_right_app. Qed.

Lemma filter_fold_insert_desc_out (q : Devotional.t -> bool)
    (l base : list Devotional.t) :
  (forall d, In d l -> q d = false) ->
  filter q (fold_right insert_desc base l) = filter q base.
Proof.
  induction l as [|x r IH]; simpl; auto.
  intros H. rewrite filter_insert_desc_out by auto. apply IH. auto.
Qed.


(** The listing of a table: its active rows, newest first. *)
Lemma listActive_eq (t : Table) :
  listActive (Some t)
  = mkResponse 200
      (RowsBody (order_by_created_at_desc (filter active (rows t)))).
Proof. reflexivity. Qed.


(** ** Soft delete and visibility *)

(** A DELETE answered with 204 had a number for id and found an active
    row, which is logically deleted afterwards. *)
Lemma softDelete_success (db : Database) (now : Timestamp) (id : string) :
  status (snd (softDelete db now id)) = 204 ->
  isNaN (Number id) = false
  /\ (exists t d, db = Some t /\ In d (rows t)
                  /\ where_id_active (BNumber (Number id)) d = true)
  /\ deleted_for (BNumber (Number id)) (fst (softDelete db now id)).
Proof.
  destruct (isNaN (Number id)) eqn:Hid.
  { destruct (invalid_id_responses db now id None None Hid) as (_ & _ & ->).
    simpl. discriminate. }
  destruct db as [t|].
  2:{ unfold softDelete. rewrite Hid. simpl. discriminate. }
  rewrite (softDelete_eq t now id Hid). simpl.
  set (w := where_id_active (BNumber (Number id))).
  destruct (filter w (rows t)) as [|d0 fl] eqn:Hfl; [simpl; discriminate|].
  intros _.
  assert (In d0 (rows t) /\ w d0 = true) as [Hin0 Hw0].
  { apply filter_In. rewrite Hfl. left. reflexivity. }
  split; [reflexivity|]. split; [exists t, d0; auto|].
  split.
  - exists (delete_row id now d0). split; [apply in_map; exact Hin0|].
    rewrite (proj1 (delete_row_frame id now d0)).
    unfold w, where_id_active in Hw0. apply andb_prop in Hw0. tauto.
  - intros d' Hin' Hm'. apply in_map_iff in Hin' as (d & <- & Hin).
    rewrite (proj1 (delete_row_frame id now d)) in Hm'.
    unfold delete_row. fold w. destruct (w d) eqn:Hw; [reflexivity|].
    unfold w, where_id_active in Hw. rewrite Hm' in Hw. exact Hw.
Qed.

Lemma deleted_for_table (v : Bound) (db : Database) :
  deleted_for v db -> exists t, db = Some t.
Proof.
  intros [(d & Hin & _) _]. destruct db as [t|]; [eauto | destruct Hin].
Qed.





(** ** Validation of the id *)

(** C2, as the code has it. An id for which [Number(id)] is [NaN], such
    as ["abc"], is answered with 400 by [getById], [updatePartial] and
    [softDelete], whatever the store and the body, and the store is left
    as it is; none of them answers 404. *)
Theorem NaN_id_is_rejected (db : Database) (now : Timestamp) (id : string)
    (verse content : option string) :
  isNaN (Number id) = true ->
  getById db id = invalid_id
  /\ updatePartial db now id verse content = (db, invalid_id)
  /\ softDelete db now id = (db, invalid_id)
  /\ status invalid_id = 400.
Proof.
  intros H.
  destruct (invalid_id_responses db now id verse content H) as (H1 & H2 & H3).
  repeat split; assumption.
Qed.

Lemma NaN_id_is_rejected_witness :
  isNaN (Number "abc") = true
  /\ getById db1 "abc" = invalid_id
  /\ softDelete db1 110 "abc" = (db1, invalid_id).
Proof.
  split; [reflexivity|].
  destruct (NaN_id_is_rejected db1 110 "abc" None None eq_refl)
    as (H1 & _ & H3 & _).
  split; assumption.
Defined.

(** C2, as stated, fails: ["-1"] and ["1.5"] are not non-negative
    integers, yet the three handlers look them up and answer 404. *)
Lemma negative_and_fractional_ids_pass :
  nonneg_integer_syntax "-1" = false
  /\ nonneg_integer_syntax "1.5" = false
  /\ status (getById db1 "-1") = 404
  /\ status (getById db1 "1.5") = 404
  /\ status (snd (updatePartial db1 105 "-1" None (Some "C2"))) = 404
  /\ status (snd (updatePartial db1 105 "1.5" None (Some "C2"))) = 404
  /\ status (snd (softDelete db1 110 "-1")) = 404
  /\ status (snd (softDelete db1 110 "1.5")) = 404.
Proof. repeat split. Qed.

(** The ids that the check lets through are exactly the numbers. *)
Lemma id_check_iff (db : Database) (id : string) :
  status (getById db id) = 400 <-> isNaN (Number id) = true.
Proof.
  split.
  - destruct (isNaN (Number id)) eqn:H; [reflexivity|].
    unfold getById. rewrite H. destruct db as [t|]; simpl.
    + destruct (find _ _); simpl; discriminate.
    + discriminate.
  - intros H. unfold getById. rewrite H. reflexivity.
Qed.

(** ** Store failures *)

(** C3. With the table missing the SELECT of [getById] throws, and the
    [catch] block answers 404; the [catch] blocks of the four other
    handlers answer 500. *)
Theorem getById_store_failure_is_404 :
  getById None "1" = mkResponse 404 (ErrorBody "Devotional Not Found")
  /\ status (listActive None) = 500
  /\ status (snd (create None 100 john loved)) = 500
  /\ status (snd (updatePartial None 105 "1" john None)) = 500
  /\ status (snd (softDelete None 110 "1")) = 500.
Proof. repeat split. Qed.

Lemma getById_never_500 (db : Database) (id : string) :
  status (getById db id) <> 500.
Proof.
  unfold getById. destruct (isNaN (Number id)); [simpl; discriminate|].
  destruct db as [t|]; simpl; [|discriminate].
  destruct (find _ _); simpl; discriminate.
Qed.

(** ** Partial update *)

(** C4. A PATCH that reaches an active record answers 200, and the record
    becomes [patch_fields verse content now d]: a field that is not
    supplied keeps its stored value, a supplied field replaces it, and
    [updated_at] is the time of the request; this holds for the three
    branches (verse only, content only, both). The rows that the id does
    not name are unchanged. *)
Theorem updatePartial_patches_fields (t : Table) (now : Timestamp)
    (id : string) (verse content : option string) (i : nat)
    (d : Devotional.t) :
  isNaN (Number id) = false ->
  falsy verse && falsy content = false ->
  nth_error (rows t) i = Some d ->
  where_id_active (BText id) d = true ->
  let db' := fst (updatePartial (Some t) now id verse content) in
  snd (updatePartial (Some t) now id verse content) = updated id verse content
  /\ nth_error (rows_of db') i = Some (patch_fields verse content now d)
  /\ Devotional.updated_at (patch_fields verse content now d) = Some now
  /\ (forall j x, nth_error (rows t) j = Some x ->
                  where_id_active (BText id) x = false ->
                  nth_error (rows_of db') j = Some x).
Proof.
  intros Hid Hf Hn Hw db'. unfold db'.
  rewrite (updatePartial_eq t now id verse content Hid Hf). simpl.
  rewrite (filter_some _ _ d (nth_error_In _ _ Hn) Hw).
  repeat split.
  - rewrite nth_error_map, Hn. simpl. unfold patch_row. rewrite Hw.
    reflexivity.
  - intros j x Hx Hwx. rewrite nth_error_map, Hx. simpl.
    unfold patch_row. rewrite Hwx. reflexivity.
Qed.

Lemma updatePartial_patches_fields_witness :
  snd (updatePartial (Some v1_c1) 105 "1" None (Some "C2"))
  = updated "1" None (Some "C2")
  /\ nth_error
       (rows_of (fst (updatePartial (Some v1_c1) 105 "1" None (Some "C2")))) 0
     = Some (Devotional.mk 1 "V1" "C2" 100 (Some 105) None).
Proof.
  destruct (updatePartial_patches_fields v1_c1 105 "1" None (Some "C2") 0
              (Devotional.mk 1 "V1" "C1" 100 None None)
              eq_refl eq_refl eq_refl eq_refl) as (H1 & H2 & _).
  split; [exact H1 | exact H2].
Defined.

(** ** Deleting twice *)


Lemma where_id_active_number (id : string) (d : Devotional.t) :
  where_id_active (BNumber (Number id)) d = true -> isNaN (Number id) = false.
Proof.
  unfold where_id_active. simpl. destruct (Number id); simpl;
    try reflexivity; discriminate.
Qed.



(** ** Listing *)

Lemma max_rowid_app (l1 l2 : list Devotional.t) :
  max_rowid (l1 ++ l2) = Z.max (max_rowid l1) (max_rowid l2).
Proof.
  assert (0 <= max_rowid l2) as H0.
  { induction l2 as [|x r IH]; simpl; lia. }
  induction l1 as [|x r IH]; simpl; lia.
Qed.

Lemma next_rowid_after_insert (t : Table) (d : Devotional.t) (k : Z) :
  Devotional.id d = k -> k = next_rowid t ->
  next_rowid (mkTable (rows t ++ [d]) k) = k + 1.
Proof.
  intros Hd Hk. unfold next_rowid at 1. cbn [rows seq].
  rewrite max_rowid_app. simpl. rewrite Hd.
  pose proof (next_rowid_pos t). unfold next_rowid in *. lia.
Qed.

Lemma run_create_ABC (t : Table) (tA tB tC : Timestamp)
    (vA cA vB cB vC cC : string) :
  vA <> "" -> cA <> "" -> vB <> "" -> cB <> "" -> vC <> "" -> cC <> "" ->
  let n := next_rowid t in
  run (Some t) (create_ABC tA tB tC vA cA vB cB vC cC)
  = Some (mkTable (rows t ++ [new_row n vA cA tA; new_row (n + 1) vB cB tB;
                              new_row (n + 2) vC cC tC])
                  (n + 2)).
Proof.
  intros HvA HcA HvB HcB HvC HcC n. unfold create_ABC. cbn [run handle].
  rewrite (create_eq t tA vA cA HvA HcA). cbn [fst]. fold n.
  set (T1 := mkTable (rows t ++ [Devotional.mk n vA cA tA None None]) n).
  assert (next_rowid T1 = n + 1) as E1
    by (apply next_rowid_after_insert; reflexivity).
  rewrite (create_eq T1 tB vB cB HvB HcB). cbn [fst]. rewrite E1.
  set (T2 := mkTable (rows T1 ++ [Devotional.mk (n + 1) vB cB tB None None])
                     (n + 1)).
  assert (next_rowid T2 = n + 1 + 1) as E2
    by (apply next_rowid_after_insert; [reflexivity | symmetry; exact E1]).
  rewrite (create_eq T2 tC vC cC HvC HcC). cbn [fst]. rewrite E2.
  unfold T2, T1, new_row. cbn [rows]. rewrite <- !app_assoc. simpl.
  replace (n + 1 + 1) with (n + 2) by lia. reflexivity.
Qed.

(** C6, as the code has it. The listing is made of exactly the active
    rows and [created_at] never increases along it. When A, B and C are
    created in this order at three different, increasing seconds, they
    are listed in the order C, B, A. *)
Theorem listActive_newest_first (t : Table) :
  listActive (Some t)
  = mkResponse 200 (RowsBody (listed (listActive (Some t))))
  /\ Permutation (listed (listActive (Some t))) (filter active (rows t))
  /\ StronglySorted created_desc (listed (listActive (Some t)))
  /\ (forall (tA tB tC : Timestamp) (vA cA vB cB vC cC : string),
        vA <> "" -> cA <> "" -> vB <> "" -> cB <> "" ->
        vC <> "" -> cC <> "" ->
        tA < tB -> tB < tC ->
        let n := next_rowid t in
        restrict_to [n; n + 1; n + 2]
          (listed (listActive
                     (run (Some t)
                        (create_ABC tA tB tC vA cA vB cB vC cC))))
        = [new_row (n + 2) vC cC tC; new_row (n + 1) vB cB tB;
           new_row n vA cA tA]).
Proof.
  rewrite listActive_eq. unfold listed. cbn [body].
  split; [reflexivity|]. split; [apply order_by_created_at_desc_perm|].
  split; [apply order_by_created_at_desc_sorted|].
  intros tA tB tC vA cA vB cB vC cC HvA HcA HvB HcB HvC HcC HAB HBC.
  rewrite run_create_ABC by assumption. set (n := next_rowid t).
  rewrite listActive_eq. cbn [body rows].
  rewrite filter_app. cbn [filter active is_null new_row Devotional.deleted_at].
  rewrite order_by_created_at_desc_app.
  unfold restrict_to. rewrite filter_fold_insert_desc_out.
  - unfold order_by_created_at_desc, new_row. cbn [fold_right insert_desc].
    cbn [Devotional.created_at].
    rewrite (proj2 (Z.ltb_lt tB tC) HBC). cbn [insert_desc].
    cbn [Devotional.created_at].
    rewrite (proj2 (Z.ltb_lt tA tC)) by lia.
    rewrite (proj2 (Z.ltb_lt tA tB) HAB).
    cbn [filter existsb Devotional.id].
    rewrite !Z.eqb_refl, !orb_true_r. reflexivity.
  - intros d Hd. apply filter_In in Hd as [Hd _].
    apply next_rowid_fresh in Hd. fold n in Hd. cbn [existsb].
    rewrite !(proj2 (Z.eqb_neq _ _)) by lia. reflexivity.
Qed.

Lemma listActive_newest_first_witness :
  1 < 2 /\ 2 < 3
  /\ listed (listActive (run (Some empty_table)
                           (create_ABC 1 2 3 "vA" "cA" "vB" "cB" "vC" "cC")))
     = [new_row 3 "vC" "cC" 3; new_row 2 "vB" "cB" 2; new_row 1 "vA" "cA" 1].
Proof.
  split; [lia|]. split; [lia|].
  destruct (listActive_newest_first empty_table) as (_ & _ & _ & H).
  apply (H 1 2 3 "vA" "cA" "vB" "cB" "vC" "cC");
    solve [discriminate | lia].
Defined.

(** C6, as stated, fails: A, B and C created within the same second are
    listed A, B, C, since nothing but [created_at] orders them. *)
Lemma same_second_listing_is_not_reversed :
  listed (listActive (run (Some empty_table)
                        (create_ABC 100 100 100 "vA" "cA" "vB" "cB" "vC" "cC")))
  = [new_row 1 "vA" "cA" 100; new_row 2 "vB" "cB" 100; new_row 3 "vC" "cC" 100]
  /\ listed (listActive (run (Some empty_table)
                           (create_ABC 100 100 100
                              "vA" "cA" "vB" "cB" "vC" "cC")))
     <> [new_row 3 "vC" "cC" 100; new_row 2 "vB" "cB" 100;
         new_row 1 "vA" "cA" 100].
Proof. split; [reflexivity | discriminate]. Qed.

(** ** Creation *)

Lemma find_app {A : Type} (w : A -> bool) (l1 l2 : list A) :
  (forall d, In d l1 -> w d = false) -> find w (l1 ++ l2) = find w l2.
Proof.
  induction l1 as [|x r IH]; simpl; auto.
  intros H. rewrite (H x) by auto. apply IH. auto.
Qed.

(** C7, as the code has it. A POST with an empty or missing verse or
    content is answered with 400 and the store is left as it is. With
    both non-empty, on a store that has its table and whose next rowid
    is at most [2^53], it is answered with 201 and the new id, one row is
    appended, and [getById] of that id answers 200 with the new record,
    which is active. *)
Theorem create_validates_and_round_trips (t : Table) (now : Timestamp) :
  (forall db verse content,
      falsy verse || falsy content = true ->
      create db now verse content = (db, fields_required)
      /\ status fields_required = 400)
  /\ (forall v c, v <> "" -> c <> "" ->
        next_rowid t <= 2 ^ 53 ->
        let n := next_rowid t in
        let db' := fst (create (Some t) now (Some v) (Some c)) in
        snd (create (Some t) now (Some v) (Some c)) = created n v c
        /\ status (created n v c) = 201
        /\ rows_of db' = rows t ++ [new_row n v c now]
        /\ getById db' (String_of_int n)
           = mkResponse 200 (RowBody (new_row n v c now))
        /\ active (new_row n v c now) = true).
Proof.
  split.
  - intros db verse content H. split; [|reflexivity].
    apply create_invalid. exact H.
  - intros v c Hv Hc Hsafe n db'. unfold db'.
    pose proof (next_rowid_pos t) as Hpos. fold n in Hpos, Hsafe.
    rewrite (create_eq t now v c Hv Hc). cbn [fst snd rows_of rows].
    fold n. rewrite int64_to_number_safe by lia.
    split; [reflexivity|]. split; [reflexivity|]. split; [reflexivity|].
    split; [|reflexivity].
    destruct n as [|p|p] eqn:Hn; try lia.
    rewrite getById_eq
      by (rewrite Number_String_of_int by exact Hsafe; reflexivity).
    cbn [rows]. rewrite find_app.
    + cbn [find]. unfold where_id_active, new_row.
      cbn [Devotional.id Devotional.deleted_at is_null].
      rewrite (sql_id_eq_String_of_int (Z.pos p) p false Hsafe), Z.eqb_refl.
      reflexivity.
    + intros d Hd. unfold where_id_active.
      rewrite (sql_id_eq_String_of_int (Devotional.id d) p false Hsafe).
      apply next_rowid_fresh in Hd. fold n in Hd. rewrite Hn in Hd.
      rewrite (proj2 (Z.eqb_neq _ _)) by lia. reflexivity.
Qed.

Lemma create_validates_and_round_trips_witness :
  create db3 120 (Some "") loved = (db3, fields_required)
  /\ snd (create db3 120 john loved)
     = created 2 "John 3:16" "For God so loved..."
  /\ getById (fst (create db3 120 john loved)) "2"
     = mkResponse 200
         (RowBody (new_row 2 "John 3:16" "For God so loved..." 120)).
Proof.
  destruct (create_validates_and_round_trips
              (mkTable [Devotional.mk 1 "Romans 8:28" "For God so loved..." 100
                          (Some 105) (Some 110)] 1) 120) as [H1 H2].
  split; [apply (H1 db3 (Some "") loved eq_refl)|].
  destruct (H2 "John 3:16" "For God so loved..."
              ltac:(discriminate) ltac:(discriminate)
              ltac:(vm_compute; discriminate))
    as (Ha & _ & _ & Hb & _).
  split; [exact Ha | exact Hb].
Defined.

(** C7, as stated, fails. After the row [2^53] the INSERT stores the row
    [2^53 + 1], but [lastInsertRowid] is a JavaScript number and the 201
    answer reports [2^53], the id of the row that was there: [getById] of
    the reported id returns the old record. *)
Lemma created_id_beyond_2_53_is_another_row :
  create (Some last_row_2_53) 200 (Some "V2") (Some "C2")
  = (Some (mkTable [Devotional.mk 9007199254740992 "V1" "C1" 100 None None;
                    new_row 9007199254740993 "V2" "C2" 200]
                   9007199254740993),
     created 9007199254740992 "V2" "C2")
  /\ getById (fst (create (Some last_row_2_53) 200 (Some "V2") (Some "C2")))
       (String_of_int 9007199254740992)
     = mkResponse 200
         (RowBody (Devotional.mk 9007199254740992 "V1" "C1" 100 None None)).
Proof. vm_compute. split; reflexivity. Qed.

(** ** Timestamps *)

(** C8. A row whose [deleted_at] is set is left exactly as it is by every
    sequence of requests: it stays at its place in the table with every
    column, [deleted_at] included, unchanged. *)
Theorem deleted_at_is_terminal (db : Database)
    (trace : list (Timestamp * Request)) (i : nat) (d : Devotional.t)
    (ts : Timestamp) :
  nth_error (rows_of db) i = Some d ->
  Devotional.deleted_at d = Some ts ->
  nth_error (rows_of (run db trace)) i = Some d
  /\ (forall d', nth_error (rows_of (run db trace)) i = Some d' ->
                 Devotional.deleted_at d' = Some ts).
Proof.
  intros Hn Hd.
  assert (nth_error (rows_of (run db trace)) i = Some d) as H.
  { revert Hn. apply (run_steps (fun x => nth_error (rows_of x) i = Some d)).
    intros x y Hs Hx. apply (step_frozen x y i d Hs Hx).
    unfold active. rewrite Hd. reflexivity. }
  split; [exact H|]. intros d' Hd'. congruence.
Qed.

Lemma deleted_at_is_terminal_witness :
  nth_error
    (rows_of (run db3 [(120, SoftDelete "1");
                       (121, UpdatePartial "1" john loved);
                       (122, Create john loved)])) 0
  = Some (Devotional.mk 1 "Romans 8:28" "For God so loved..." 100
            (Some 105) (Some 110)).
Proof.
  apply (deleted_at_is_terminal db3
           [(120, SoftDelete "1"); (121, UpdatePartial "1" john loved);
            (122, Create john loved)]
           0 _ 110); reflexivity.
Defined.

Lemma Forall2_map_r {A : Type} (P : A -> A -> Prop) (f : A -> A)
    (l : list A) :
  (forall x, P x (f x)) -> Forall2 P l (map f l).
Proof. intros H. induction l; simpl; constructor; auto. Qed.

Lemma Forall2_same {A : Type} (P : A -> A -> Prop) (l : list A) :
  (forall x, P x x) -> Forall2 P l l.
Proof. intros H. induction l; constructor; auto. Qed.

Lemma create_appends (db : Database) (now : Timestamp)
    (verse content : option string) :
  exists new, rows_of (fst (create db now verse content)) = rows_of db ++ new
              /\ Forall (fun d => Devotional.updated_at d = None
                                  /\ Devotional.deleted_at d = None) new.
Proof.
  destruct (falsy verse || falsy content) eqn:Hf.
  - rewrite (create_invalid db now verse content Hf). exists [].
    rewrite app_nil_r. auto.
  - apply orb_false_elim in Hf as [Hv Hc].
    destruct (falsy_false _ Hv) as (a & v & ->).
    destruct (falsy_false _ Hc) as (b & c & ->).
    destruct db as [t|].
    + rewrite create_eq by discriminate. eexists. split; [reflexivity|].
      constructor; [split; reflexivity | constructor].
    + exists []. auto.
Qed.

Lemma softDelete_rows (db : Database) (now : Timestamp) (id : string) :
  rows_of (fst (softDelete db now id)) = rows_of db
  \/ rows_of (fst (softDelete db now id))
     = map (delete_row id now) (rows_of db).
Proof.
  destruct (isNaN (Number id)) eqn:Hid.
  - destruct (invalid_id_responses db now id None None Hid) as (_ & _ & ->).
    left. reflexivity.
  - destruct db as [t|].
    + rewrite (softDelete_eq t now id Hid). right. reflexivity.
    + destruct (no_table_responses now id None None) as (_ & _ & ->).
      left. reflexivity.
Qed.

Lemma delete_row_same_but_deleted_at (id : string) (now : Timestamp)
    (d : Devotional.t) :
  same_but_deleted_at d (delete_row id now d).
Proof.
  unfold delete_row, same_but_deleted_at.
  destruct (where_id_active _ d); simpl; repeat split.
Qed.

(** C9. [create] appends rows whose [updated_at] is absent and leaves the
    rows of the table as they are; [softDelete] leaves every column but
    [deleted_at] of every row as it is; and a request that is not an
    [updatePartial] leaves the [updated_at] of every row as it is. *)
Theorem updated_at_only_by_updatePartial (db : Database) (now : Timestamp) :
  (forall verse content,
      exists new,
        rows_of (fst (create db now verse content)) = rows_of db ++ new
        /\ Forall (fun d => Devotional.updated_at d = None) new)
  /\ (forall id,
        Forall2 same_but_deleted_at
          (rows_of db) (rows_of (fst (softDelete db now id))))
  /\ (forall r i d,
        (forall id verse content, r <> UpdatePartial id verse content) ->
        nth_error (rows_of db) i = Some d ->
        exists d', nth_error (rows_of (fst (handle db now r))) i = Some d'
                   /\ Devotional.updated_at d' = Devotional.updated_at d).
Proof.
  assert (forall id,
             Forall2 same_but_deleted_at
               (rows_of db) (rows_of (fst (softDelete db now id)))) as Hdel.
  { intros id. destruct (softDelete_rows db now id) as [-> | ->].
    - apply Forall2_same. intros x. repeat split.
    - apply Forall2_map_r. apply delete_row_same_but_deleted_at. }
  split; [|split].
  - intros verse content.
    destruct (create_appends db now verse content) as (new & E & Hnew).
    exists new. split; [exact E|].
    apply (Forall_impl _ (fun d H => proj1 H) Hnew).
  - exact Hdel.
  - intros r i d Hr Hn. destruct r; cbn [handle fst].
    + eauto.
    + eauto.
    + destruct (create_appends db now verse content) as (new & -> & _).
      exists d. split; [|reflexivity].
      rewrite nth_error_app1; [exact Hn|].
      apply nth_error_Some. congruence.
    + exfalso. exact (Hr id verse content eq_refl).
    + specialize (Hdel id).
      destruct (softDelete_rows db now id) as [E | E]; rewrite E.
      * eauto.
      * rewrite nth_error_map, Hn. simpl. eexists. split; [reflexivity|].
        apply (delete_row_same_but_deleted_at id now d).
Qed.

Lemma updated_at_only_by_updatePartial_witness :
  exists d', nth_error (rows_of (fst (handle db2 110 (SoftDelete "1")))) 0
             = Some d'
             /\ Devotional.updated_at d' = Some 105.
Proof.
  destruct (updated_at_only_by_updatePartial db2 110) as (_ & _ & H).
  apply (H (SoftDelete "1") 0%nat
           (Devotional.mk 1 "Romans 8:28" "For God so loved..." 100
              (Some 105) None)).
  - intros id verse content. discriminate.
  - reflexivity.
Defined.

(** ** Empty strings in a PATCH *)

Lemma patch_fields_kept_or_nonempty (verse content : option string)
    (now : Timestamp) (d : Devotional.t) :
  kept_or_nonempty (Devotional.verse d)
    (Devotional.verse (patch_fields verse content now d))
  /\ kept_or_nonempty (Devotional.content d)
       (Devotional.content (patch_fields verse content now d)).
Proof.
  unfold kept_or_nonempty, patch_fields. simpl.
  destruct verse as [[|a v]|], content as [[|b c]|]; simpl;
    split; first [left; reflexivity | right; discriminate].
Qed.

Lemma updatePartial_rows (db : Database) (now : Timestamp) (id : string)
    (verse content : option string) :
  rows_of (fst (updatePartial db now id verse content)) = rows_of db
  \/ rows_of (fst (updatePartial db now id verse content))
     = map (patch_row id verse content now) (rows_of db).
Proof.
  destruct (isNaN (Number id)) eqn:Hid.
  - destruct (invalid_id_responses db now id verse content Hid)
      as (_ & -> & _). left. reflexivity.
  - destruct db as [t|].
    + destruct (falsy verse && falsy content) eqn:Hf.
      * unfold updatePartial. rewrite Hid, Hf. left. reflexivity.
      * rewrite (updatePartial_eq t now id verse content Hid Hf).
        right. reflexivity.
    + destruct (no_table_responses now id verse content) as (_ & -> & _).
      left. reflexivity.
Qed.

(** C10. A PATCH with the empty string for verse and a non-empty content
    that reaches an active record answers 200, replaces the content and
    keeps the verse; with the empty string for verse and no content it is
    answered with 400 and changes nothing; and no PATCH ever replaces a
    stored verse or content by the empty string. *)
Theorem empty_field_counts_as_absent (db : Database) (now : Timestamp)
    (id : string) :
  (forall t c i d,
      db = Some t -> c <> "" -> isNaN (Number id) = false ->
      nth_error (rows t) i = Some d ->
      where_id_active (BText id) d = true ->
      status (snd (updatePartial db now id (Some "") (Some c))) = 200
      /\ nth_error
           (rows_of (fst (updatePartial db now id (Some "") (Some c)))) i
         = Some (Devotional.mk (Devotional.id d) (Devotional.verse d) c
                   (Devotional.created_at d) (Some now)
                   (Devotional.deleted_at d)))
  /\ (status (snd (updatePartial db now id (Some "") None)) = 400
      /\ fst (updatePartial db now id (Some "") None) = db)
  /\ (forall verse content,
        Forall2 (fun d d' =>
                   kept_or_nonempty (Devotional.verse d) (Devotional.verse d')
                   /\ kept_or_nonempty (Devotional.content d)
                        (Devotional.content d'))
          (rows_of db)
          (rows_of (fst (updatePartial db now id verse content)))).
Proof.
  split; [|split].
  - intros t c i d -> Hc Hid Hn Hw.
    assert (falsy (Some "") && falsy (Some c) = false) as Hf
      by (destruct c; [congruence | reflexivity]).
    rewrite (updatePartial_eq t now id _ _ Hid Hf). cbn [fst snd rows_of rows].
    rewrite (filter_some _ _ d (nth_error_In _ _ Hn) Hw).
    split; [reflexivity|].
    rewrite nth_error_map, Hn. simpl. unfold patch_row. rewrite Hw.
    unfold patch_fields. destruct c; [congruence | reflexivity].
  - unfold updatePartial. destruct (isNaN (Number id)); split; reflexivity.
  - intros verse content.
    destruct (updatePartial_rows db now id verse content) as [-> | ->].
    + apply Forall2_same. intros x. split; left; reflexivity.
    + apply Forall2_map_r. intros x. unfold patch_row.
      destruct (where_id_active _ x).
      * apply patch_fields_kept_or_nonempty.
      * split; left; reflexivity.
Qed.

Lemma empty_field_counts_as_absent_witness :
  status (snd (updatePartial (Some v1_c1) 105 "1" (Some "") (Some "C2"))) = 200
  /\ nth_error
       (rows_of (fst (updatePartial (Some v1_c1) 105 "1" (Some "")
                        (Some "C2")))) 0
     = Some (Devotional.mk 1 "V1" "C2" 100 (Some 105) None).
Proof.
  destruct (empty_field_counts_as_absent (Some v1_c1) 105 "1") as (H & _).
  apply (H v1_c1 "C2" 0%nat (Devotional.mk 1 "V1" "C1" 100 None None));
    solve [reflexivity | discriminate].
Defined.

(** ** Failures, and how the handlers agree on an id *)

Lemma filter_count_zero {A : Type} (w : A -> bool) (l : list A) :
  (0 <? Z.of_nat (List.length (filter w l))) = false ->
  forall d, In d l -> w d = false.
Proof.
  intros H d Hd. destruct (w d) eqn:Hw; [|reflexivity].
  rewrite (filter_some w l d Hd Hw) in H. discriminate.
Qed.

(** A request that is answered with a failure (400, 404 or 500) leaves
    the store exactly as it was. *)
Theorem failure_leaves_store (db : Database) (now : Timestamp) (r : Request) :
  is_failure (snd (handle db now r)) = true ->
  fst (handle db now r) = db.
Proof.
  unfold is_failure. destruct r as [|id|verse content|id verse content|id];
    cbn [handle fst snd]; try reflexivity.
  - destruct (falsy verse || falsy content) eqn:Hf.
    + rewrite (create_invalid db now verse content Hf). reflexivity.
    + apply orb_false_elim in Hf as [Hv Hc].
      destruct (falsy_false _ Hv) as (a & v & ->).
      destruct (falsy_false _ Hc) as (b & c & ->).
      destruct db as [t|]; [|reflexivity].
      rewrite create_eq by discriminate. cbn. discriminate.
  - destruct (isNaN (Number id)) eqn:Hid.
    { destruct (invalid_id_responses db now id verse content Hid)
        as (_ & -> & _). reflexivity. }
    destruct db as [t|].
    2:{ destruct (no_table_responses now id verse content) as (_ & -> & _).
        reflexivity. }
    destruct (falsy verse && falsy content) eqn:Hf.
    { unfold updatePartial. rewrite Hid, Hf. reflexivity. }
    rewrite (updatePartial_eq t now id verse content Hid Hf). cbn [fst snd].
    destruct (0 <? _) eqn:Hc; [cbn; discriminate|]. intros _.
    pose proof (filter_count_zero _ _ Hc) as Hno.
    unfold patch_row. rewrite map_if_false by exact Hno.
    rewrite table_eta. reflexivity.
  - destruct (isNaN (Number id)) eqn:Hid.
    { destruct (invalid_id_responses db now id None None Hid)
        as (_ & _ & ->). reflexivity. }
    destruct db as [t|].
    2:{ destruct (no_table_responses now id None None) as (_ & _ & ->).
        reflexivity. }
    rewrite (softDelete_eq t now id Hid). cbn [fst snd].
    destruct (0 <? _) eqn:Hc; [cbn; discriminate|]. intros _.
    pose proof (filter_count_zero _ _ Hc) as Hno.
    unfold delete_row. rewrite map_if_false by exact Hno.
    rewrite table_eta. reflexivity.
Qed.

Lemma failure_leaves_store_witness :
  fst (handle db3 120 (UpdatePartial "1" john None)) = db3.
Proof.
  apply (failure_leaves_store db3 120 (UpdatePartial "1" john None)).
  reflexivity.
Defined.

Lemma getById_200 (db : Database) (id : string) :
  status (getById db id) = 200 <->
  isNaN (Number id) = false
  /\ exists t d, db = Some t /\ In d (rows t)
                 /\ where_id_active (BText id) d = true.
Proof.
  split.
  - intros H. destruct (isNaN (Number id)) eqn:Hid.
    { unfold getById in H. rewrite Hid in H. discriminate. }
    split; [reflexivity|]. destruct db as [t|].
    2:{ unfold getById in H. rewrite Hid in H. discriminate. }
    rewrite (getById_eq t id Hid) in H.
    destruct (find _ _) as [d|] eqn:Hf; [|discriminate].
    apply find_some in Hf. exists t, d. tauto.
  - intros (Hid & t & d & -> & Hin & Hw).
    rewrite (getById_eq t id Hid).
    destruct (find _ _) eqn:Hf; [reflexivity|].
    rewrite (find_none _ _ Hf d Hin) in Hw. discriminate.
Qed.

(** A PATCH whose body carries a field succeeds on exactly the ids that
    GET finds: both run the same WHERE clause with the id bound as text. *)
Theorem patch_succeeds_where_get_finds (db : Database) (now : Timestamp)
    (id : string) (verse content : option string) :
  falsy verse && falsy content = false ->
  (status (snd (updatePartial db now id verse content)) = 200
   <-> status (getById db id) = 200).
Proof.
  intros Hf. rewrite getById_200. split.
  - intros H. destruct (isNaN (Number id)) eqn:Hid.
    { destruct (invalid_id_responses db now id verse content Hid)
        as (_ & E & _). rewrite E in H. discriminate. }
    split; [reflexivity|]. destruct db as [t|].
    2:{ unfold updatePartial in H. rewrite Hid, Hf in H.
        destruct (falsy verse), (falsy content); discriminate. }
    rewrite (updatePartial_eq t now id verse content Hid Hf) in H.
    cbn [snd] in H.
    destruct (filter (where_id_active (BText id)) (rows t)) as [|d l] eqn:Hl;
      [discriminate|].
    assert (In d (filter (where_id_active (BText id)) (rows t))) as Hin
      by (rewrite Hl; left; reflexivity).
    apply filter_In in Hin. exists t, d. tauto.
  - intros (Hid & t & d & -> & Hin & Hw).
    rewrite (updatePartial_eq t now id verse content Hid Hf). cbn [snd].
    rewrite (filter_some _ _ d Hin Hw). reflexivity.
Qed.

Lemma patch_succeeds_where_get_finds_witness :
  status (snd (updatePartial db1 105 "1" None (Some "C2"))) = 200
  <-> status (getById db1 "1") = 200.
Proof.
  apply (patch_succeeds_where_get_finds db1 105 "1" None (Some "C2")).
  reflexivity.
Defined.



(** For an id written as one or more digits, with a value of at most
    [2^53], the three handlers address the same row: the text that GET
    and PATCH bind and the number that DELETE binds match the same ids,
    and the id passes the check. *)
Theorem digit_id_addresses_one_row (id : string) :
  nonneg_integer_syntax id = true ->
  digits_value (list_ascii_of_string id) <= 2 ^ 53 ->
  isNaN (Number id) = false
  /\ (forall d, where_id_active (BText id) d
                = where_id_active (BNumber (Number id)) d)
  /\ (forall n, sql_id_eq n (BText id)
                = (n =? digits_value (list_ascii_of_string id))).
Proof.
  unfold nonneg_integer_syntax. intros H Hle.
  assert (list_ascii_of_string id <> []
          /\ forallb isDigit (list_ascii_of_string id) = true) as [Hne Hd].
  { destruct (list_ascii_of_string id) as [|c r]; [discriminate|].
    split; [discriminate | exact H]. }
  destruct (digits_text_value id Hne Hd Hle) as (_ & HT & HN & _).
  split; [rewrite HN; reflexivity|]. split.
  - intros d. unfold where_id_active. cbn [sql_id_eq]. rewrite HT, HN.
    reflexivity.
  - intros n. cbn [sql_id_eq]. rewrite HT. apply denotes_integer.
Qed.

Lemma digit_id_addresses_one_row_witness :
  isNaN (Number "0042") = false
  /\ sql_id_eq 42 (BText "0042") = true.
Proof.
  destruct (digit_id_addresses_one_row "0042" eq_refl
              ltac:(vm_compute; discriminate)) as (H1 & _ & H3).
  split; [exact H1 | rewrite H3; reflexivity].
Defined.

(** Beyond [2^53] the two bindings part: the digits ["9007199254740993"]
    are the row [2^53 + 1] for GET and PATCH and the row [2^53] for
    DELETE. *)
Example digit_id_beyond_2_53 :
  sql_id_eq 9007199254740993 (BText "9007199254740993") = true
  /\ sql_id_eq 9007199254740992 (BNumber (Number "9007199254740993")) = true
  /\ sql_id_eq 9007199254740993 (BNumber (Number "9007199254740993")) = false.
Proof. vm_compute. repeat split. Qed.

(** A soft delete cannot be repeated or undone through the API: once
    [softDelete(id)] has answered 204, after any further requests
    [softDelete(id)] answers 404 and changes nothing. *)
Theorem delete_is_final (db : Database) (now now' : Timestamp) (id : string)
    (trace : list (Timestamp * Request)) :
  status (snd (softDelete db now id)) = 204 ->
  let db' := run (fst (softDelete db now id)) trace in
  softDelete db' now' id = (db', not_found_or_already_deleted).
Proof.
  intros H db'. destruct (softDelete_success db now id H) as (Hid & _ & Hdel).
  assert (deleted_for (BNumber (Number id)) db') as Hdel'.
  { unfold db'. apply run_steps; [apply step_deleted_for | exact Hdel]. }
  destruct (deleted_for_table _ _ Hdel') as [t' Ht'].
  clearbody db'. subst db'. destruct Hdel' as [_ Hall].
  assert (forall d, In d (rows t') ->
                    where_id_active (BNumber (Number id)) d = false) as Hno.
  { intros d Hd. unfold where_id_active.
    destruct (sql_id_eq _ _) eqn:Hm; [|reflexivity].
    exact (Hall d Hd Hm). }
  rewrite (softDelete_eq t' now' id Hid).
  unfold delete_row. rewrite map_if_false by exact Hno.
  rewrite filter_none by exact Hno. rewrite table_eta. reflexivity.
Qed.

Lemma delete_is_final_witness :
  softDelete (run db3 [(120, Create john loved)]) 130 "1"
  = (run db3 [(120, Create john loved)], not_found_or_already_deleted).
Proof.
  apply (delete_is_final db2 110 130 "1" [(120, Create john loved)]).
  reflexivity.
Defined.



(** ** The listing under the other requests *)

Lemma listed_rows_of (db : Database) :
  listed (listActive db)
  = order_by_created_at_desc (filter active (rows_of db)).
Proof. destruct db as [t|]; reflexivity. Qed.

Lemma insert_desc_head_sorted (x : Devotional.t) (l : list Devotional.t) :
  (forall y, In y l -> created_desc x y) -> insert_desc x l = x :: l.
Proof.
  destruct l as [|z r]; [reflexivity|]. intros H. simpl.
  specialize (H z (or_introl eq_refl)). unfold created_desc in H.
  rewrite (proj2 (Z.ltb_ge _ _)) by lia. reflexivity.
Qed.

(** On a sorted list, filtering and inserting commute. *)
Lemma filter_insert_desc_in (p : Devotional.t -> bool) (x : Devotional.t)
    (l : list Devotional.t) :
  p x = true -> StronglySorted created_desc l ->
  filter p (insert_desc x l) = insert_desc x (filter p l).
Proof.
  intros Hp Hs. induction Hs as [|y r Hr IH Hy].
  - simpl. rewrite Hp. reflexivity.
  - cbn [insert_desc].
    destruct (Devotional.created_at x <? Devotional.created_at y) eqn:Hlt.
    + cbn [filter]. rewrite IH. destruct (p y); [|reflexivity].
      cbn [insert_desc]. rewrite Hlt. reflexivity.
    + cbn [filter]. rewrite Hp.
      rewrite insert_desc_head_sorted; [reflexivity|].
      intros z Hz. apply Z.ltb_ge in Hlt. unfold created_desc.
      assert (In z (y :: r)) as Hin.
      { destruct (p y); [|right]; try (apply filter_In in Hz; tauto).
        destruct Hz as [<- | Hz]; [left; reflexivity|].
        right. apply filter_In in Hz. tauto. }
      destruct Hin as [<- | Hin]; [exact Hlt|].
      rewrite Forall_forall in Hy. specialize (Hy z Hin).
      unfold created_desc in Hy. lia.
Qed.

Lemma order_by_created_at_desc_filter (p : Devotional.t -> bool)
    (l : list Devotional.t) :
  order_by_created_at_desc (filter p l)
  = filter p (order_by_created_at_desc l).
Proof.
  induction l as [|x r IH]; [reflexivity|].
  cbn [filter]. change (order_by_created_at_desc (x :: r))
    with (insert_desc x (order_by_created_at_desc r)).
  destruct (p x) eqn:Hp.
  - change (order_by_created_at_desc (x :: filter p r))
      with (insert_desc x (order_by_created_at_desc (filter p r))).
    rewrite IH. symmetry. apply filter_insert_desc_in; [exact Hp|].
    apply order_by_created_at_desc_sorted.
  - rewrite filter_insert_desc_out by exact Hp. exact IH.
Qed.

Lemma filter_filter {A : Type} (p q : A -> bool) (l : list A) :
  filter p (filter q l) = filter (fun d => q d && p d) l.
Proof.
  induction l as [|x r IH]; [reflexivity|]. simpl.
  destruct (q x); simpl; [destruct (p x)|]; rewrite IH; reflexivity.
Qed.

Lemma filter_active_delete_row (id : string) (now : Timestamp)
    (l : list Devotional.t) :
  filter active (map (delete_row id now) l)
  = filter (fun d => negb (named_by id d)) (filter active l).
Proof.
  rewrite filter_filter. induction l as [|x r IH]; [reflexivity|].
  cbn [map filter]. rewrite IH.
  unfold delete_row, where_id_active, named_by, active.
  destruct (sql_id_eq _ _), (is_null (Devotional.deleted_at x)) eqn:Ha;
    cbn; rewrite ?Ha; reflexivity.
Qed.

(** A DELETE takes out of the listing exactly the records that its id
    names, and leaves the others in their order; when it fails, the
    listing is the same. *)
Theorem delete_removes_from_listing (db : Database) (now : Timestamp)
    (id : string) :
  listed (listActive (fst (softDelete db now id)))
  = filter (fun d => negb (named_by id d)) (listed (listActive db)).
Proof.
  rewrite !listed_rows_of.
  destruct (isNaN (Number id)) eqn:Hid.
  { destruct (invalid_id_responses db now id None None Hid) as (_ & _ & ->).
    cbn [fst]. symmetry. apply forallb_filter_id. apply forallb_forall.
    intros d _. unfold named_by. simpl.
    destruct (Number id); try discriminate; reflexivity. }
  destruct db as [t|].
  2:{ destruct (no_table_responses now id None None) as (_ & _ & ->).
      reflexivity. }
  rewrite (softDelete_eq t now id Hid). cbn [fst rows_of rows].
  rewrite filter_active_delete_row. apply order_by_created_at_desc_filter.
Qed.

Lemma insert_desc_map (f : Devotional.t -> Devotional.t) (x : Devotional.t)
    (l : list Devotional.t) :
  (forall d, Devotional.created_at (f d) = Devotional.created_at d) ->
  insert_desc (f x) (map f l) = map f (insert_desc x l).
Proof.
  intros Hf. induction l as [|y r IH]; [reflexivity|].
  cbn [map insert_desc]. rewrite !Hf.
  destruct (_ <? _); [cbn [map]; rewrite IH|]; reflexivity.
Qed.

Lemma order_by_created_at_desc_map (f : Devotional.t -> Devotional.t)
    (l : list Devotional.t) :
  (forall d, Devotional.created_at (f d) = Devotional.created_at d) ->
  order_by_created_at_desc (map f l) = map f (order_by_created_at_desc l).
Proof.
  intros Hf. induction l as [|x r IH]; [reflexivity|].
  cbn [map]. change (order_by_created_at_desc (f x :: map f r))
    with (insert_desc (f x) (order_by_created_at_desc (map f r))).
  rewrite IH. apply insert_desc_map. exact Hf.
Qed.

Lemma filter_map_commute (p : Devotional.t -> bool)
    (f : Devotional.t -> Devotional.t) (l : list Devotional.t) :
  (forall d, p (f d) = p d) -> filter p (map f l) = map f (filter p l).
Proof.
  intros H. induction l as [|x r IH]; [reflexivity|].
  cbn [map filter]. rewrite H, IH. destruct (p x); reflexivity.
Qed.

Lemma patch_row_keeps (id : string) (verse content : option string)
    (now : Timestamp) (d : Devotional.t) :
  Devotional.id (patch_row id verse content now d) = Devotional.id d
  /\ Devotional.created_at (patch_row id verse content now d)
     = Devotional.created_at d
  /\ Devotional.deleted_at (patch_row id verse content now d)
     = Devotional.deleted_at d.
Proof.
  unfold patch_row. destruct (where_id_active _ d); repeat split.
Qed.

(** A PATCH never changes which records are listed nor their order: the
    listing after it is the listing before it, with the same ids and
    creation times at the same places, the addressed record patched. *)
Theorem patch_keeps_listing (db : Database) (now : Timestamp) (id : string)
    (verse content : option string) :
  let before := listed (listActive db) in
  let after := listed (listActive
                         (fst (updatePartial db now id verse content))) in
  (after = before \/ after = map (patch_row id verse content now) before)
  /\ map Devotional.id after = map Devotional.id before
  /\ map Devotional.created_at after = map Devotional.created_at before.
Proof.
  cbv zeta. rewrite !listed_rows_of.
  destruct (updatePartial_rows db now id verse content) as [-> | ->].
  - split; [left; reflexivity | split; reflexivity].
  - rewrite filter_map_commute
      by (intros d; unfold active;
          rewrite (proj2 (proj2 (patch_row_keeps id verse content now d)));
          reflexivity).
    rewrite order_by_created_at_desc_map
      by (intros d; apply patch_row_keeps).
    split; [right; reflexivity|]. rewrite !map_map. split.
    + apply map_ext. intros d. apply patch_row_keeps.
    + apply map_ext. intros d. apply patch_row_keeps.
Qed.

Lemma fold_insert_desc_head (x : Devotional.t) (base l : list Devotional.t) :
  (forall d, In d l -> Devotional.created_at d < Devotional.created_at x) ->
  fold_right insert_desc (x :: base) l = x :: fold_right insert_desc base l.
Proof.
  induction l as [|y r IH]; [reflexivity|]. intros H.
  cbn [fold_right]. rewrite IH by (intros d Hd; apply H; right; exact Hd).
  cbn [insert_desc].
  rewrite (proj2 (Z.ltb_lt _ _)) by (apply H; left; reflexivity).
  reflexivity.
Qed.

(** A created devotional is in the listing at once; when every active
    record was created in an earlier second, it is the first of the
    listing and the others follow as before. *)
Theorem created_is_listed (t : Table) (now : Timestamp) (v c : string) :
  v <> "" -> c <> "" ->
  let d := new_row (next_rowid t) v c now in
  let after := listed (listActive
                         (fst (create (Some t) now (Some v) (Some c)))) in
  In d after
  /\ ((forall x, In x (rows t) -> active x = true ->
         Devotional.created_at x < now) ->
      after = d :: listed (listActive (Some t))).
Proof.
  intros Hv Hc. cbv zeta. rewrite (create_eq t now v c Hv Hc). cbn [fst].
  rewrite !listed_rows_of. cbn [rows_of rows]. rewrite filter_app.
  cbn [filter]. fold (new_row (next_rowid t) v c now).
  change (active (new_row (next_rowid t) v c now)) with true. cbv iota.
  split.
  - apply (Permutation_in _
             (Permutation_sym (order_by_created_at_desc_perm _))).
    apply in_or_app. right. left. reflexivity.
  - intros Hlater. rewrite order_by_created_at_desc_app.
    change (order_by_created_at_desc [new_row (next_rowid t) v c now])
      with [new_row (next_rowid t) v c now].
    apply fold_insert_desc_head. intros x Hx.
    apply filter_In in Hx as [Hin Ha]. exact (Hlater x Hin Ha).
Qed.

Lemma created_is_listed_witness :
  listed (listActive (fst (create db1 101 (Some "vB") (Some "cB"))))
  = [new_row 2 "vB" "cB" 101;
     Devotional.mk 1 "John 3:16" "For God so loved..." 100 None None].
Proof.
  destruct (created_is_listed
              (mkTable [Devotional.mk 1 "John 3:16" "For God so loved..." 100
                          None None] 1)
              101 "vB" "cB" ltac:(discriminate) ltac:(discriminate))
    as [_ H].
  apply H. intros x [<- | []] _. reflexivity.
Defined.

(** ** What every run keeps *)

(** The rows of the store after one request, in the three possible
    shapes. *)
Lemma handle_rows (db : Database) (now : Timestamp) (r : Request) :
  rows_of (fst (handle db now r)) = rows_of db
  \/ (exists id verse content,
        falsy verse && falsy content = false
        /\ rows_of (fst (handle db now r))
           = map (patch_row id verse content now) (rows_of db))
  \/ (exists id,
        rows_of (fst (handle db now r))
        = map (delete_row id now) (rows_of db))
  \/ (exists t v c,
        db = Some t /\ v <> "" /\ c <> ""
        /\ fst (handle db now r)
           = Some (mkTable (rows t ++ [new_row (next_rowid t) v c now])
                           (next_rowid t))).
Proof.
  destruct r as [|id|verse content|id verse content|id]; cbn [handle fst].
  - left. reflexivity.
  - left. reflexivity.
  - destruct (falsy verse || falsy content) eqn:Hf.
    + rewrite (create_invalid db now verse content Hf). left. reflexivity.
    + apply orb_false_elim in Hf as [Hv Hc].
      destruct (falsy_false _ Hv) as (a & v & ->).
      destruct (falsy_false _ Hc) as (b & c & ->).
      destruct db as [t|]; [|left; reflexivity].
      right. right. right. exists t, (String a v), (String b c).
      rewrite create_eq by discriminate.
      repeat split; discriminate.
  - destruct (falsy verse && falsy content) eqn:Hf.
    + left. unfold updatePartial. rewrite Hf.
      destruct (isNaN (Number id)); reflexivity.
    + destruct (updatePartial_rows db now id verse content) as [E | E].
      * left. exact E.
      * right. left. exists id, verse, content. split; [exact Hf | exact E].
  - destruct (softDelete_rows db now id) as [E | E].
    + left. exact E.
    + right. right. left. exists id. exact E.
Qed.

Lemma delete_row_keeps (id : string) (now : Timestamp) (d : Devotional.t) :
  Devotional.id (delete_row id now d) = Devotional.id d
  /\ Devotional.created_at (delete_row id now d) = Devotional.created_at d.
Proof. unfold delete_row. destruct (where_id_active _ d); split; reflexivity. Qed.

(** No row is ever removed or moved, and its [id] and [created_at] never
    change: after any requests, the row at a place of the table has the
    id and the creation time of the row that was there. *)
Theorem id_and_created_at_are_immutable (db : Database)
    (trace : list (Timestamp * Request)) (i : nat) (d : Devotional.t) :
  nth_error (rows_of db) i = Some d ->
  exists d', nth_error (rows_of (run db trace)) i = Some d'
             /\ Devotional.id d' = Devotional.id d
             /\ Devotional.created_at d' = Devotional.created_at d.
Proof.
  revert db d. induction trace as [|[now r] rest IH]; intros db d Hn.
  - exists d. auto.
  - cbn [run].
    assert (exists d1, nth_error (rows_of (fst (handle db now r))) i = Some d1
                       /\ Devotional.id d1 = Devotional.id d
                       /\ Devotional.created_at d1 = Devotional.created_at d)
      as (d1 & H1 & Hid & Hc).
    { destruct (handle_rows db now r)
        as [E | [(id & v & c & _ & E) | [(id & E) | (t & v & c & -> & _ & _ & E)]]];
        rewrite E.
      - exists d. auto.
      - rewrite nth_error_map, Hn. eexists. split; [reflexivity|].
        split; apply patch_row_keeps.
      - rewrite nth_error_map, Hn. eexists. split; [reflexivity|].
        apply delete_row_keeps.
      - exists d. cbn [rows_of rows]. split; [|auto].
        rewrite nth_error_app1; [exact Hn|].
        apply nth_error_Some. cbn [rows_of] in Hn. congruence. }
    destruct (IH _ _ H1) as (d' & H' & Hid' & Hc').
    exists d'. split; [exact H'|]. split; congruence.
Qed.

Lemma id_and_created_at_are_immutable_witness :
  exists d', nth_error
               (rows_of (run db1 [(105, UpdatePartial "1" None (Some "C2"));
                                  (110, SoftDelete "1");
                                  (120, Create john loved)])) 0 = Some d'
             /\ Devotional.id d' = 1
             /\ Devotional.created_at d' = 100.
Proof.
  apply (id_and_created_at_are_immutable db1
           [(105, UpdatePartial "1" None (Some "C2")); (110, SoftDelete "1");
            (120, Create john loved)]
           0 (Devotional.mk 1 "John 3:16" "For God so loved..." 100 None None)).
  reflexivity.
Defined.

Lemma handle_nonempty_fields (db : Database) (now : Timestamp) (r : Request) :
  Forall nonempty_fields (rows_of db) ->
  Forall nonempty_fields (rows_of (fst (handle db now r))).
Proof.
  intros H.
  destruct (handle_rows db now r)
    as [E | [(id & v & c & _ & E) | [(id & E) | (t & v & c & -> & Hv & Hc & E)]]];
    rewrite E.
  - exact H.
  - apply Forall_map. apply (Forall_impl _ (P := nonempty_fields)); [|exact H].
    intros d [Hdv Hdc]. unfold patch_row.
    destruct (where_id_active _ d); [|split; assumption].
    destruct (patch_fields_kept_or_nonempty v c now d) as [[E1 | N1] [E2 | N2]];
      split; congruence.
  - apply Forall_map. apply (Forall_impl _ (P := nonempty_fields)); [|exact H].
    intros d Hd. unfold delete_row.
    destruct (where_id_active _ d); exact Hd.
  - cbn [rows_of rows] in *. apply Forall_app. split; [exact H|].
    constructor; [split; assumption | constructor].
Qed.

(** Verse and content are never empty in the table: when no row has an
    empty verse or content, no sequence of requests produces one. *)
Theorem fields_stay_nonempty (db : Database)
    (trace : list (Timestamp * Request)) :
  Forall nonempty_fields (rows_of db) ->
  Forall nonempty_fields (rows_of (run db trace)).
Proof.
  revert db. induction trace as [|[now r] rest IH]; intros db H; [exact H|].
  cbn [run]. apply IH. apply handle_nonempty_fields. exact H.
Qed.

Lemma fields_stay_nonempty_witness :
  Forall nonempty_fields
    (rows_of (run (Some empty_table)
                [(100, Create john loved);
                 (105, UpdatePartial "1" (Some "") (Some "C2"))])).
Proof.
  apply (fields_stay_nonempty (Some empty_table)
           [(100, Create john loved);
            (105, UpdatePartial "1" (Some "") (Some "C2"))]).
  constructor.
Defined.

(** On a table whose next rowid is at most [2^53], the id that a
    successful POST reports is positive and larger than the id of every
    row of the table, the deleted ones included: an id is never given
    twice. *)
Theorem created_id_is_fresh (db : Database) (now : Timestamp)
    (verse content v c : option string) (message : string) (n : Z) :
  (forall t, db = Some t -> next_rowid t <= 2 ^ 53) ->
  body (snd (create db now verse content)) = CreatedBody message n v c ->
  0 < n /\ forall d, In d (rows_of db) -> Devotional.id d < n.
Proof.
  intros Hsafe.
  destruct (falsy verse || falsy content) eqn:Hf.
  { rewrite (create_invalid db now verse content Hf). discriminate. }
  apply orb_false_elim in Hf as [Hv Hc].
  destruct (falsy_false _ Hv) as (a & v' & ->).
  destruct (falsy_false _ Hc) as (b & c' & ->).
  destruct db as [t|]; [|discriminate].
  specialize (Hsafe t eq_refl). pose proof (next_rowid_pos t) as Hpos.
  rewrite create_eq by discriminate. cbn [snd body].
  rewrite int64_to_number_safe by lia.
  intros [= _ <- _ _]. split; [exact Hpos|].
  intros d Hd. apply next_rowid_fresh. exact Hd.
Qed.

Lemma created_id_is_fresh_witness :
  0 < 2 /\ forall d, In d (rows_of db3) -> Devotional.id d < 2.
Proof.
  apply (created_id_is_fresh db3 120 john loved john loved
           "Devotional created successfully" 2).
  - intros t [= <-]. vm_compute. discriminate.
  - reflexivity.
Defined.

Lemma max_rowid_le (l : list Devotional.t) (k : Z) :
  0 <= k -> (forall d, In d l -> Devotional.id d <= k) -> max_rowid l <= k.
Proof.
  intros Hk. induction l as [|x r IH]; simpl; [lia|].
  intros H. specialize (IH (fun d Hd => H d (or_intror Hd))).
  specialize (H x (or_introl eq_refl)). lia.
Qed.

Lemma first_ids_S (n : nat) :
  first_ids (S n) = first_ids n ++ [Z.of_nat n + 1].
Proof.
  unfold first_ids. rewrite seq_S, map_app. cbn [map]. f_equal. f_equal. lia.
Qed.

Lemma first_ids_le (n : nat) (z : Z) : In z (first_ids n) -> z <= Z.of_nat n.
Proof.
  unfold first_ids. intros H. apply in_map_iff in H as (k & <- & Hk).
  apply in_seq in Hk. lia.
Qed.

(** From the empty table the ids are given in sequence: after any
    requests the table exists, its rows have the ids 1, 2, ..., n in this
    order, and the counter is n. *)
Theorem ids_are_consecutive (trace : list (Timestamp * Request)) :
  exists t, run (Some empty_table) trace = Some t
            /\ map Devotional.id (rows t) = first_ids (List.length (rows t))
            /\ seq t = Z.of_nat (List.length (rows t)).
Proof.
  assert (forall tr t0,
             map Devotional.id (rows t0) = first_ids (List.length (rows t0)) ->
             seq t0 = Z.of_nat (List.length (rows t0)) ->
             exists t, run (Some t0) tr = Some t
                       /\ map Devotional.id (rows t)
                          = first_ids (List.length (rows t))
                       /\ seq t = Z.of_nat (List.length (rows t))) as H.
  { induction tr as [|[now r] rest IH]; intros t0 Hids Hseq.
    - exists t0. auto.
    - cbn [run].
      assert (exists t1, fst (handle (Some t0) now r) = Some t1
                         /\ map Devotional.id (rows t1)
                            = first_ids (List.length (rows t1))
                         /\ seq t1 = Z.of_nat (List.length (rows t1)))
        as (t1 & E & Hids1 & Hseq1); [|rewrite E; exact (IH t1 Hids1 Hseq1)].
      pose proof (handle_step (Some t0) now r) as Hs.
      remember (Some t0) as d0 eqn:Ed0.
      remember (fst (handle d0 now r)) as d1 eqn:Ed1. clear Ed1.
      destruct Hs as [db | t f Hf | t x Hx _ _];
        [|injection Ed0 as ->..].
      + exists t0. auto.
      + eexists. split; [reflexivity|]. cbn [rows seq].
        rewrite length_map, map_map.
        rewrite (map_ext _ Devotional.id) by (intros d; apply Hf). auto.
      + eexists. split; [reflexivity|]. cbn [rows seq].
        assert (next_rowid t0 = Z.of_nat (List.length (rows t0)) + 1) as Hn.
        { unfold next_rowid. rewrite Hseq.
          assert (max_rowid (rows t0) <= Z.of_nat (List.length (rows t0))).
          { apply max_rowid_le; [lia|]. intros d Hd.
            apply first_ids_le. rewrite <- Hids. apply in_map. exact Hd. }
          lia. }
        rewrite length_app, map_app. cbn [map List.length].
        rewrite Nat.add_1_r, first_ids_S, Hids, Hx, Hn. split; [reflexivity|].
        lia. }
  apply H; reflexivity.
Qed.

(** The primary key holds after every run (witness of [run_pk_unique]). *)
Lemma run_pk_unique_witness :
  pk_unique (run (Some empty_table)
               [(100, Create john loved); (101, Create john loved)]).
Proof.
  apply (run_pk_unique (Some empty_table)
           [(100, Create john loved); (101, Create john loved)]).
  constructor.
Defined.

(** ** The order of the timestamps *)

Lemma not_after_le (T T' : Timestamp) (d : Devotional.t) :
  T <= T' -> not_after T d -> not_after T' d.
Proof.
  intros HT (Hc & Hu & Hd). repeat split.
  - lia.
  - intros u E. specialize (Hu u E). lia.
  - intros x E. specialize (Hd x E). lia.
Qed.

Lemma patch_row_time (T now : Timestamp) (id : string)
    (verse content : option string) (d : Devotional.t) :
  T <= now -> life_ordered d /\ not_after T d ->
  life_ordered (patch_row id verse content now d)
  /\ not_after now (patch_row id verse content now d).
Proof.
  intros HT [Hl Hn]. unfold patch_row, where_id_active.
  destruct (sql_id_eq _ _); cbn [andb];
    [|split; [exact Hl | exact (not_after_le T now d HT Hn)]].
  destruct (is_null (Devotional.deleted_at d)) eqn:Ha;
    [|split; [exact Hl | exact (not_after_le T now d HT Hn)]].
  destruct (Devotional.deleted_at d) eqn:Hd; [discriminate|].
  destruct Hn as (Hc & _ & _).
  unfold life_ordered, not_after, patch_fields. cbn. rewrite Hd.
  repeat split; try discriminate; try lia; intros u [= <-]; lia.
Qed.

Lemma delete_row_time (T now : Timestamp) (id : string) (d : Devotional.t) :
  T <= now -> life_ordered d /\ not_after T d ->
  life_ordered (delete_row id now d) /\ not_after now (delete_row id now d).
Proof.
  intros HT [Hl Hn]. unfold delete_row, where_id_active.
  destruct (sql_id_eq _ _); cbn [andb];
    [|split; [exact Hl | exact (not_after_le T now d HT Hn)]].
  destruct (is_null (Devotional.deleted_at d)) eqn:Ha;
    [|split; [exact Hl | exact (not_after_le T now d HT Hn)]].
  destruct Hl as [Hlu _]. destruct Hn as (Hc & Hu & _).
  unfold life_ordered, not_after, set_deleted_at. cbn.
  repeat split; try exact Hlu; try lia.
  - match goal with E : Some _ = Some _ |- _ => injection E as <- end. lia.
  - match goal with E : Some _ = Some _ |- _ => injection E as <- end.
    intros u E. specialize (Hu u E). lia.
  - intros u E. specialize (Hu u E). lia.
  - intros x [= <-]. lia.
Qed.

Lemma handle_time (T now : Timestamp) (db : Database) (r : Request) :
  T <= now ->
  Forall (fun d => life_ordered d /\ not_after T d) (rows_of db) ->
  Forall (fun d => life_ordered d /\ not_after now d)
    (rows_of (fst (handle db now r))).
Proof.
  intros HT H.
  assert (Forall (fun d => life_ordered d /\ not_after now d) (rows_of db))
    as Hnow.
  { apply (Forall_impl _ (P := fun d => life_ordered d /\ not_after T d));
      [|exact H].
    intros d [Hl Hn]. split; [exact Hl | exact (not_after_le T now d HT Hn)]. }
  destruct (handle_rows db now r)
    as [E | [(id & v & c & _ & E) | [(id & E) | (t & v & c & -> & _ & _ & E)]]];
    rewrite E.
  - exact Hnow.
  - apply Forall_map.
    apply (Forall_impl _ (P := fun d => life_ordered d /\ not_after T d));
      [|exact H].
    intros d Hd. exact (patch_row_time T now id v c d HT Hd).
  - apply Forall_map.
    apply (Forall_impl _ (P := fun d => life_ordered d /\ not_after T d));
      [|exact H].
    intros d Hd. exact (delete_row_time T now id d HT Hd).
  - cbn [rows_of rows] in *. apply Forall_app. split; [exact Hnow|].
    constructor; [|constructor].
    unfold life_ordered, not_after, new_row. cbn.
    repeat split; try discriminate; lia.
Qed.

(** When the clock never goes back, the timestamps of every row follow
    its life: [created_at] is not after [updated_at], and [deleted_at] is
    after neither of them (a record is never updated after its
    deletion). *)
Theorem timestamps_follow_life (T : Timestamp) (db : Database)
    (trace : list (Timestamp * Request)) :
  Forall (fun d => life_ordered d /\ not_after T d) (rows_of db) ->
  chronological T trace ->
  Forall life_ordered (rows_of (run db trace)).
Proof.
  revert T db. induction trace as [|[now r] rest IH]; intros T db H Hc.
  - apply (Forall_impl _ (P := fun d => life_ordered d /\ not_after T d));
      [|exact H]. intros d Hd. apply Hd.
  - cbn [run]. destruct Hc as [HT Hrest].
    apply (IH now); [|exact Hrest].
    apply (handle_time T now db r HT H).
Qed.

Lemma timestamps_follow_life_witness :
  Forall life_ordered
    (rows_of (run (Some empty_table)
                [(100, Create john loved);
                 (105, UpdatePartial "1" None (Some "C2"));
                 (105, SoftDelete "1")])).
Proof.
  apply (timestamps_follow_life 0 (Some empty_table)
           [(100, Create john loved);
            (105, UpdatePartial "1" None (Some "C2"));
            (105, SoftDelete "1")]).
  - constructor.
  - cbn. lia.
Defined.

(** ** The second copy of the PATCH handler *)

(** With both fields supplied the second copy stores the verse in the
    content column and the content in the verse column: its effect on
    the store is that of the first copy called with the two fields
    exchanged, while its answer reports them as they were sent. *)
Theorem second_copy_swaps_fields (db : Database) (now : Timestamp)
    (id : string) (v c : string) :
  v <> "" -> c <> "" ->
  fst (updatePartial_second_copy db now id (Some v) (Some c))
  = fst (updatePartial db now id (Some c) (Some v))
  /\ status (snd (updatePartial_second_copy db now id (Some v) (Some c)))
     = status (snd (updatePartial db now id (Some c) (Some v)))
  /\ (status (snd (updatePartial_second_copy db now id (Some v) (Some c)))
      = 200 ->
      exists message,
        body (snd (updatePartial_second_copy db now id (Some v) (Some c)))
        = UpdatedBody message (Some v) (Some c)).
Proof.
  intros Hv Hc. destruct v as [|a v]; [congruence|].
  destruct c as [|b c]; [congruence|].
  unfold updatePartial_second_copy, updatePartial.
  destruct (isNaN (Number id)); [repeat split; discriminate|].
  destruct db as [t|]; [|repeat split; discriminate].
  cbn. destruct (0 <? _); cbn; repeat split; try discriminate.
  intros _. eexists. reflexivity.
Qed.

Lemma second_copy_swaps_fields_witness :
  fst (updatePartial_second_copy (Some v1_c1) 105 "1" (Some "V2") (Some "C2"))
  = fst (updatePartial (Some v1_c1) 105 "1" (Some "C2") (Some "V2")).
Proof.
  apply (second_copy_swaps_fields (Some v1_c1) 105 "1" "V2" "C2");
    discriminate.
Defined.

(** With at most one field supplied the two copies of the PATCH handler
    have the same effect on the store and answer with the same status. *)
Theorem second_copy_agrees_on_one_field (db : Database) (now : Timestamp)
    (id : string) (verse content : option string) :
  falsy verse || falsy content = true ->
  fst (updatePartial_second_copy db now id verse content)
  = fst (updatePartial db now id verse content)
  /\ status (snd (updatePartial_second_copy db now id verse content))
     = status (snd (updatePartial db now id verse content)).
Proof.
  intros Hf. unfold updatePartial_second_copy, updatePartial.
  destruct (isNaN (Number id)); [split; reflexivity|].
  destruct verse as [[|a v]|], content as [[|b c]|]; try discriminate Hf;
    cbn; try (split; reflexivity);
    (destruct db as [t|]; [|split; reflexivity]);
    cbn; destruct (0 <? _); split; reflexivity.
Qed.

Lemma second_copy_agrees_on_one_field_witness :
  fst (updatePartial_second_copy (Some v1_c1) 105 "1" None (Some "C2"))
  = fst (updatePartial (Some v1_c1) 105 "1" None (Some "C2")).
Proof.
  apply (second_copy_agrees_on_one_field (Some v1_c1) 105 "1" None
           (Some "C2")).
  reflexivity.
Defined.

(** ** The start of the server *)

Lemma handle_no_table (now : Timestamp) (r : Request) :
  fst (handle None now r) = None
  /\ is_failure (snd (handle None now r)) = true.
Proof.
  destruct r as [|id|verse content|id verse content|id]; cbn [handle fst snd].
  - split; reflexivity.
  - split; [reflexivity|]. unfold getById.
    destruct (isNaN (Number id)); reflexivity.
  - unfold create. destruct (falsy verse || falsy content) eqn:Hf;
      [split; reflexivity|].
    apply orb_false_elim in Hf as [Hv Hc].
    destruct (falsy_false _ Hv) as (a & v & ->).
    destruct (falsy_false _ Hc) as (b & c & ->). split; reflexivity.
  - unfold updatePartial. destruct (isNaN (Number id)); [split; reflexivity|].
    destruct (falsy verse) eqn:Hv, (falsy content) eqn:Hc;
      split; reflexivity.
  - unfold softDelete. destruct (isNaN (Number id)); split; reflexivity.
Qed.

(** The table is created only for a new database file: on a file that
    exists without the table no request ever creates it, and every
    request, whatever came before, is answered with a failure. *)
Theorem missing_table_is_never_created (trace : list (Timestamp * Request))
    (now : Timestamp) (r : Request) :
  run (open_database (Some None)) trace = None
  /\ is_failure (snd (handle (run (open_database (Some None)) trace) now r))
     = true.
Proof.
  assert (run None trace = None) as E.
  { induction trace as [|[now' r'] rest IH]; [reflexivity|].
    cbn [run]. rewrite (proj1 (handle_no_table now' r')). exact IH. }
  cbn [open_database]. rewrite E. split; [reflexivity|].
  apply handle_no_table.
Qed.

(** ** Registration *)

Lemma max_user_id_app (l1 l2 : list User.t) :
  max_user_id (l1 ++ l2) = Z.max (max_user_id l1) (max_user_id l2).
Proof.
  assert (0 <= max_user_id l2) as H0.
  { induction l2 as [|x r IH]; simpl; lia. }
  induction l1 as [|x r IH]; simpl; lia.
Qed.

Lemma next_user_id_after_insert (users : Users) (u : User.t) :
  User.id u = next_user_id users ->
  next_user_id (mkUsers (user_rows users ++ [u]) (next_user_id users))
  = next_user_id users + 1.
Proof.
  intros Hu. unfold next_user_id at 1. cbn [user_rows user_seq].
  rewrite max_user_id_app. simpl. rewrite Hu.
  assert (0 <= max_user_id (user_rows users)).
  { induction (user_rows users) as [|x r IH]; simpl; lia. }
  unfold next_user_id in *. lia.
Qed.

(** Usernames are not unique: registering a username that is taken
    succeeds again with 201. Both rows are stored after the existing
    ones, with two different ids and each with its own hash. *)
Theorem register_accepts_taken_username (Entropy : Type)
    (hashSync : Entropy -> string -> Z -> string) (users : Users)
    (e1 e2 : Entropy) (u p1 p2 : string) :
  u <> "" -> p1 <> "" -> p2 <> "" ->
  let n := next_user_id users in
  let first := register hashSync users e1 (Some u) (Some p1) in
  let second := register hashSync (fst first) e2 (Some u) (Some p2) in
  register_status (snd first) = 201
  /\ register_status (snd second) = 201
  /\ user_rows (fst second)
     = user_rows users
       ++ [User.mk n u (hashSync e1 p1 10);
           User.mk (n + 1) u (hashSync e2 p2 10)].
Proof.
  intros Hu H1 H2. destruct u as [|a u]; [congruence|].
  destruct p1 as [|b1 p1]; [congruence|].
  destruct p2 as [|b2 p2]; [congruence|].
  cbv zeta. unfold register. cbn [falsy String.eqb orb try_catch bind
    bind_text insert_user fst snd register_status user_rows].
  rewrite next_user_id_after_insert by reflexivity.
  rewrite <- app_assoc. repeat split.
Qed.

Lemma register_accepts_taken_username_witness :
  user_rows
    (fst (register (fun e p _ => (e ++ p)%string)
            (fst (register (fun e p _ => (e ++ p)%string)
                    (mkUsers [] 0) "s1" (Some "ann") (Some "pw")))
            "s2" (Some "ann") (Some "pw")))
  = [User.mk 1 "ann" "s1pw"; User.mk 2 "ann" "s2pw"].
Proof.
  destruct (register_accepts_taken_username string
              (fun e p _ => (e ++ p)%string) (mkUsers [] 0)
              "s1" "s2" "ann" "pw" "pw"
              ltac:(discriminate) ltac:(discriminate) ltac:(discriminate))
    as (_ & _ & H).
  exact H.
Defined.
